(** * pyfda fixpoint widgets: word formats, coefficient quantization and
      accumulator sizing

    A shallow embedding of

    - [pyfda/fixpoint_widgets/fixpoint_helpers.py] (class [UI_W]) and
    - [pyfda/fixpoint_widgets/iir_df1/iir_df1_pyfixp_ui.py]
      (class [IIR_DF1_pyfixp_UI])

    Python dictionaries are finite maps from strings to Python values;
    dictionaries that are shared between objects (the quantizer dicts
    [fb.fil[0]['fxqc']['QA']] etc., which the widgets keep as [self.q_dict])
    live in a store and are referred to by location, so that aliasing is
    visible.  Methods are computations in a state-and-exception monad: an
    exception carries the state reached when it was raised.

    Floating point: coefficients are exact rationals, and
    [int(np.ceil(np.log2(x)))] is the exact integer ceiling of the binary
    logarithm (with numpy's [-inf] at zero and [nan] below).  Rounding in
    [np.sum] and [np.log2] is outside the model. *)

From Stdlib Require Import ZArith QArith Qround Qabs Qpower Lia DecimalString.
From stdpp Require Import base option gmap strings list pretty.

Local Open Scope Z_scope.

(** ** Python values and exceptions *)

Inductive pyval : Type :=
  | PInt (z : Z)
  | PBool (b : bool)
  | PStr (s : string)
  | PList (l : list string).

#[global] Instance pyval_eq_dec : EqDecision pyval.
Proof. solve_decision. Defined.

Inductive pyexn : Type :=
  | KeyError (key : string)
  | TypeError
  | ValueError
  | OverflowError
  | UnboundLocalError (name : string)
  | AttributeError (name : string)
  | InvalidCoefficients.

#[global] Instance pyexn_eq_dec : EqDecision pyexn.
Proof. solve_decision. Defined.

(** What a logger call or a Qt signal leaves behind. *)
Inductive event : Type :=
  | LogError (msg : string)
  | LogException (e : pyexn)
  | LogWarning (msg : string)
  | LogDebug (msg : string)
  | Emit (sig : list (string * string)).

(** [bool] is a subclass of [int] in Python. *)
Definition as_int (v : pyval) : option Z :=
  match v with
  | PInt z => Some z
  | PBool b => Some (Z.b2z b)
  | _ => None
  end.

(** [a + b] *)
Definition py_add (a b : pyval) : pyexn + pyval :=
  match a, b with
  | PStr s, PStr t => inr (PStr (s +:+ t))
  | PList l, PList m => inr (PList (l ++ m))
  | _, _ =>
      match as_int a, as_int b with
      | Some x, Some y => inr (PInt (x + y))
      | _, _ => inl TypeError
      end
  end.

(** [str(v)] *)
Definition py_str (v : pyval) : string :=
  match v with
  | PInt z => pretty z
  | PBool true => "True"
  | PBool false => "False"
  | PStr s => s
  | PList l => "[" +:+ String.concat ", " ((λ s, "'" +:+ s +:+ "'") <$> l) +:+ "]"
  end.

(** [int(v)] *)
Definition py_int (v : pyval) : pyexn + Z :=
  match v with
  | PInt z => inr z
  | PBool b => inr (Z.b2z b)
  | PStr s =>
      match NilZero.int_of_string s with
      | Some d => inr (Z.of_int d)
      | None => inl ValueError
      end
  | PList _ => inl TypeError
  end.

(** Truth value of [v] in a condition. *)
Definition truthy (v : pyval) : bool :=
  match v with
  | PInt z => negb (z =? 0)
  | PBool b => b
  | PStr s => negb (bool_decide (s = ""))
  | PList l => negb (bool_decide (l = []))
  end.

(** ** Dictionaries and the store of shared dictionaries *)

Abbreviation qdict := (gmap string pyval).
Abbreviation loc := positive.
Abbreviation heap := (gmap loc qdict).

(** [d[k]] *)
Definition getitem (d : qdict) (k : string) : pyexn + pyval :=
  match d !! k with
  | Some v => inr v
  | None => inl (KeyError k)
  end.

(** [d.update(e)]: the entries of [e] win. *)
Definition dict_update (d e : qdict) : qdict := e ∪ d.

(** The dictionary at a location; a location never written holds [{}]. *)
Definition deref (h : heap) (l : loc) : qdict := default ∅ (h !! l).

(** [h[l][k] = v] *)
Definition setitem (h : heap) (l : loc) (k : string) (v : pyval) : heap :=
  <[l := <[k := v]> (deref h l)]> h.

(** ** State and exceptions *)

Inductive result (S A : Type) : Type :=
  | Done (a : A) (s : S)
  | Raised (e : pyexn) (s : S).
Arguments Done {S A} a s.
Arguments Raised {S A} e s.

Definition M (S A : Type) : Type := S → result S A.

#[global] Instance M_ret {S} : MRet (M S) := λ A a s, Done a s.
#[global] Instance M_bind {S} : MBind (M S) := λ A B f m s,
  match m s with
  | Done a s' => f a s'
  | Raised e s' => Raised e s'
  end.

Definition raise {S A} (e : pyexn) : M S A := λ s, Raised e s.
Definition lift {S A} (r : pyexn + A) : M S A := λ s,
  match r with
  | inr a => Done a s
  | inl e => Raised e s
  end.
Definition gets {S A} (f : S → A) : M S A := λ s, Done (f s) s.
Definition modify {S} (f : S → S) : M S unit := λ s, Done tt (f s).

(** [try: m except Exception as e: ...] hands the exception to the caller
    as a value. *)
Definition try {S A} (m : M S A) : M S (pyexn + A) := λ s,
  match m s with
  | Done a s' => Done (inr a) s'
  | Raised e s' => Done (inl e) s'
  end.

(** State reached by a run, however it ended. *)
Definition final {S A} (r : result S A) : S :=
  match r with
  | Done _ s => s
  | Raised _ s => s
  end.

(** ** numpy: [int(np.ceil(np.log2(x)))] *)

Inductive npfloat : Type :=
  | NegInf
  | Finite (k : Z)
  | NaN.

(** [np.ceil(np.log2(x))]: the least [k] with [x <= 2^k]. *)
Definition ceil_log2 (x : Q) : npfloat :=
  match Qnum x with
  | Z0 => NegInf
  | Zneg _ => NaN
  | Zpos n =>
      let d := Zpos (Qden x) in
      if d <=? Zpos n
      then Finite (Z.log2_up ((Zpos n + d - 1) / d))
      else Finite (- Z.log2 (d / Zpos n))
  end.

(** [int(f)] on a numpy float *)
Definition int_of_npfloat (f : npfloat) : pyexn + Z :=
  match f with
  | Finite k => inr k
  | NegInf => inl OverflowError
  | NaN => inl ValueError
  end.

(** [np.sum(np.abs(taps))] *)
Definition sum_abs (taps : list Q) : Q :=
  foldr Qplus 0%Q (Qabs <$> taps).

(** [len(taps)] as the float handed to [np.log2] *)
Definition len (taps : list Q) : Q := inject_Z (Z.of_nat (length taps)).

(** ** [pyfda.libs.pyfda_lib]: [qstr] and [safe_eval] *)

(** [qstr(v)]: the text shown for a value. *)
Definition qstr (v : pyval) : string := py_str v.

(** A value read as an integer entry: a number, or a text holding a decimal
    numeral. *)
Definition entry_value (v : pyval) : option Z :=
  match v with
  | PInt z => Some z
  | PBool b => Some (Z.b2z b)
  | PStr s => Z.of_int <$> NilZero.int_of_string s
  | PList _ => None
  end.

(** Modelled from the spec: [safe_eval] (module [pyfda.libs.pyfda_lib]) is
    not among the sources.  The spec says of its use with
    [return_type="int", sign='poszero']: "Numeric fields are always sanitized
    to non-negative integers before being accepted (invalid or negative
    entries are clamped/rejected at the boundary)".  An entry that is no
    integer is rejected in favour of the fallback [alt_expr] (the value held
    so far), a negative one is clamped at zero; the fallback goes through the
    same gate and a fallback that is no integer either yields 0. *)
Definition sanitize (v : pyval) : option Z := Z.max 0 <$> entry_value v.

Definition safe_eval (expr alt_expr : pyval) : Z :=
  match sanitize expr with
  | Some z => z
  | None => default 0 (sanitize alt_expr)
  end.

(** ** Word formats as they are stored *)

(** The triple [(WI, WF, W)] of integers held by a quantizer dictionary. *)
Definition word_format (d : qdict) : option (Z * Z * Z) :=
  match d !! "WI", d !! "WF", d !! "W" with
  | Some (PInt wi), Some (PInt wf), Some (PInt w) => Some (wi, wf, w)
  | _, _, _ => None
  end.

(** A stored format whose total width is the one derived from [WI] and
    [WF]. *)
Definition derived_W (f : option (Z * Z * Z)) : Prop :=
  ∃ wi wf, f = Some (wi, wf, wi + wf + 1).


(** ** [fixpoint_helpers.UI_W]: the word-format widget *)

Module UI_W.

(** The attributes of a widget instance.  The two line edits are their
    texts, the combo box its current text.  Layout, tool tips, visibility,
    the length limit of the line edits and Qt's checks of its arguments are
    left out. *)
Record t : Type := mk {
  q_dict : option loc;
  wdg_name : pyval;
  WI : pyval;
  WF : pyval;
  W : pyval;
  ledWI : string;
  ledWF : string;
  cmbW : string
}.

(** A method of the widget sees the widget, the shared dictionaries and
    the stream of log records and signals. *)
Record world : Type := World {
  self : t;
  store : heap;
  events : list event
}.

(** The triple [(self.WI, self.WF, self.W)], when all are integers. *)
Definition attr_format (x : t) : option (Z * Z * Z) :=
  match WI x, WF x, W x with
  | PInt wi, PInt wf, PInt w => Some (wi, wf, w)
  | _, _, _ => None
  end.

Definition on_self (f : t → t) : M world unit :=
  modify (λ w, World (f (self w)) (store w) (events w)).
Definition on_store (f : heap → heap) : M world unit :=
  modify (λ w, World (self w) (f (store w)) (events w)).
Definition tell (e : event) : M world unit :=
  modify (λ w, World (self w) (store w) (events w ++ [e])).

Definition set_q_dict (l : loc) (x : t) : t :=
  mk (Some l) (wdg_name x) (WI x) (WF x) (W x) (ledWI x) (ledWF x) (cmbW x).
Definition set_wdg_name (v : pyval) (x : t) : t :=
  mk (q_dict x) v (WI x) (WF x) (W x) (ledWI x) (ledWF x) (cmbW x).
Definition set_WI (v : pyval) (x : t) : t :=
  mk (q_dict x) (wdg_name x) v (WF x) (W x) (ledWI x) (ledWF x) (cmbW x).
Definition set_WF (v : pyval) (x : t) : t :=
  mk (q_dict x) (wdg_name x) (WI x) v (W x) (ledWI x) (ledWF x) (cmbW x).
Definition set_W (v : pyval) (x : t) : t :=
  mk (q_dict x) (wdg_name x) (WI x) (WF x) v (ledWI x) (ledWF x) (cmbW x).
Definition set_ledWI (s : string) (x : t) : t :=
  mk (q_dict x) (wdg_name x) (WI x) (WF x) (W x) s (ledWF x) (cmbW x).
Definition set_ledWF (s : string) (x : t) : t :=
  mk (q_dict x) (wdg_name x) (WI x) (WF x) (W x) (ledWI x) s (cmbW x).
Definition set_cmbW (s : string) (x : t) : t :=
  mk (q_dict x) (wdg_name x) (WI x) (WF x) (W x) (ledWI x) (ledWF x) s.

(** The default settings [dict_ui] of [_construct_UI]. *)
Definition dict_ui_default : qdict :=
  list_to_map
    [ ("wdg_name", PStr "ui_w"); ("label", PStr "WI.WF"); ("lbl_sep", PStr ".");
      ("max_led_width", PInt 30);
      ("WI", PInt 0); ("WI_len", PInt 2); ("tip_WI", PStr "Number of integer bits");
      ("WF", PInt 15); ("WF_len", PInt 2);
      ("tip_WF", PStr "Number of fractional bits");
      ("enabled", PBool true); ("visible", PBool true); ("fractional", PBool true);
      ("combo_visible", PBool false);
      ("combo_items", PList ["auto"; "full"; "man"]);
      ("tip_combo", PStr "Calculate Acc. width.");
      ("lock_visible", PBool false);
      ("tip_lock", PStr "Lock input/output quantization.") ].

(** [if self.q_dict:] -- [None] and the empty dictionary are false; a
    true [self.q_dict] is a reference to a non-empty dictionary. *)
Definition q_dict_truthy (x : t) (h : heap) : option loc :=
  match q_dict x with
  | Some l => if bool_decide (deref h l = ∅) then None else Some l
  | None => None
  end.

(** The loop over [kwargs]: unknown keys are logged and dropped. *)
Fixpoint apply_kwargs (kwargs : list (string * pyval)) (dict_ui : qdict)
  : M world qdict :=
  match kwargs with
  | [] => mret dict_ui
  | (k, v) :: rest =>
      match dict_ui !! k with
      | None =>
          tell (LogWarning ("Unknown key " +:+ k));;
          apply_kwargs rest dict_ui
      | Some _ => apply_kwargs rest (dict_update dict_ui {[ k := v ]})
      end
  end.

(** The three entries every update writes to a quantizer dictionary. *)
Definition word_entries (x : t) : qdict :=
  {[ "WI" := WI x; "WF" := WF x; "W" := W x ]}.

(** [butLock_clicked]: only the emitted signal is kept. *)
Definition butLock_clicked (clicked : bool) : M world unit :=
  x ← gets self;
  tell (Emit [("wdg_name", py_str (wdg_name x)); ("ui", "butLock")]).

(** [_construct_UI], with its keyword arguments in call order *)
Definition _construct_UI (kwargs : list (string * pyval)) : M world unit :=
  x ← gets self;
  h ← gets store;
  let dict_ui :=
    match q_dict_truthy x h with
    | Some l => dict_update dict_ui_default (deref h l)
    | None => dict_ui_default
    end in
  dict_ui ← apply_kwargs kwargs dict_ui;
  name ← lift (getitem dict_ui "wdg_name");
  on_self (set_wdg_name name);;
  fractional ← lift (getitem dict_ui "fractional");
  let dict_ui :=
    if negb (truthy fractional) then <["WF" := PInt 0]> dict_ui else dict_ui in
  wi ← lift (getitem dict_ui "WI");
  on_self (set_WI wi);;
  wf ← lift (getitem dict_ui "WF");
  on_self (set_WF wf);;
  sum ← lift (py_add wi wf);
  sum ← lift (py_add sum (PInt 1));
  w ← lift (py_int sum);
  on_self (set_W (PInt w));;
  x ← gets self;
  h ← gets store;
  match q_dict_truthy x h with
  | Some l =>
      on_store (λ h, <[l := dict_update (deref h l) (word_entries x)]> h)
  | None =>
      let l := fresh (dom h) in
      on_store (λ h, <[l := word_entries x]> h);;
      on_self (set_q_dict l)
  end;;
  items ← lift (getitem dict_ui "combo_items");
  on_self (set_cmbW (match items with PList (i :: _) => i | _ => "" end));;
  wi ← lift (getitem dict_ui "WI");
  on_self (set_ledWI (qstr wi));;
  wf ← lift (getitem dict_ui "WF");
  on_self (set_ledWF (qstr wf));;
  butLock_clicked false.

(** [ui2dict(s)]; [sender] is the object name of [self.sender()], if the
    call comes from a signal. *)
Definition ui2dict (sender : option string) (s : option string) : M world unit :=
  x ← gets self;
  on_self (set_WI (PInt (safe_eval (PStr (ledWI x)) (WI x))));;
  x ← gets self;
  on_self (set_ledWI (qstr (WI x)));;
  x ← gets self;
  on_self (set_WF (PInt (safe_eval (PStr (ledWF x)) (WF x))));;
  x ← gets self;
  on_self (set_ledWF (qstr (WF x)));;
  x ← gets self;
  sum ← lift (py_add (WI x) (WF x));
  sum ← lift (py_add sum (PInt 1));
  w ← lift (py_int sum);
  on_self (set_W (PInt w));;
  x ← gets self;
  match q_dict x with
  | None => raise (AttributeError "update")
  | Some l => on_store (λ h, <[l := dict_update (deref h l) (word_entries x)]> h)
  end;;
  match sender with
  | Some obj_name =>
      tell (LogDebug ("sender: " +:+ obj_name));;
      tell (Emit [("wdg_name", py_str (wdg_name x)); ("ui", obj_name)])
  | None =>
      if bool_decide (s = Some "init")
      then tell (LogDebug "called by __init__")
      else tell (LogError "sender without name!")
  end.

(** The dictionary [dict2ui] reads: the one handed in, [self.q_dict] when
    the argument is [None]. *)
Definition dict2ui_arg (arg : option loc) (x : t) : option loc :=
  match arg with
  | Some l => Some l
  | None => q_dict x
  end.

(** [dict2ui(q_dict)]; with no dictionary at all, ['WI' in None] is a
    [TypeError]. *)
Definition dict2ui (arg : option loc) : M world unit :=
  x ← gets self;
  h ← gets store;
  l ← match dict2ui_arg arg x with
      | Some l => mret l
      | None => raise TypeError
      end;
  let q_dict := deref h l in
  match q_dict !! "WI" with
  | Some v =>
      on_self (set_WI (PInt (safe_eval v (WI x))));;
      x ← gets self;
      on_self (set_ledWI (qstr (WI x)))
  | None => tell (LogWarning "No key 'WI' in dict!")
  end;;
  x ← gets self;
  match q_dict !! "WF" with
  | Some v =>
      on_self (set_WF (PInt (safe_eval v (WF x))));;
      x ← gets self;
      on_self (set_ledWF (qstr (WF x)))
  | None => tell (LogWarning "No key 'WF' in dict!")
  end;;
  x ← gets self;
  sum ← lift (py_add (WF x) (WI x));
  w ← lift (py_add sum (PInt 1));
  on_self (set_W w).

(** The widget before [__init__] has assigned anything but [q_dict]. *)
Definition blank (q_dict : option loc) : t :=
  mk q_dict (PStr "") (PInt 0) (PInt 0) (PInt 0) "" "" "".

(** The constructor [UI_W(parent, q_dict, ...)] with its keyword arguments *)
Definition __init__ (q_dict : option loc) (kwargs : list (string * pyval))
    (h : heap) : result world unit :=
  (_construct_UI kwargs;; ui2dict None (Some "init")) (World (blank q_dict) h []).

End UI_W.

(** ** [fixpoint_helpers.UI_Q]: the quantization / overflow widget

    Only what the accumulator sizing reads of it: the dictionary it was
    constructed over and the two selections. *)

Module UI_Q.

Record t : Type := mk {
  q_dict : loc;
  ovfl : string;
  quant : string
}.

End UI_Q.

(** ** [iir_df1_pyfixp_ui.IIR_DF1_pyfixp_UI] *)

Module IIR_DF1_pyfixp_UI.

(** The widget together with the part of the global filter dictionary
    [fb.fil[0]] it works on:
    - [fxqc] are the entries of [fb.fil[0]['fxqc']] that are dictionaries
      ('QI', 'QCB', 'QCA', 'QA', ...), each a reference into [store];
    - [fxqc_b], [fxqc_a] are [fb.fil[0]['fxqc']['b']] and [['a']], the
      quantized coefficients, absent until first written;
    - [ba] is [fb.fil[0]['ba']], the pair of coefficient arrays. *)
Record t : Type := mk {
  store : heap;
  fxqc : gmap string loc;
  fxqc_b : option (list Q);
  fxqc_a : option (list Q);
  ba : list Q * list Q;
  wdg_w_coeffs_b : UI_W.t;
  wdg_w_coeffs_a : UI_W.t;
  wdg_w_accu : UI_W.t;
  wdg_q_accu : UI_Q.t;
  log : list event
}.

Definition set_store (h : heap) (s : t) : t :=
  mk h (fxqc s) (fxqc_b s) (fxqc_a s) (ba s) (wdg_w_coeffs_b s)
     (wdg_w_coeffs_a s) (wdg_w_accu s) (wdg_q_accu s) (log s).
Definition set_log (l : list event) (s : t) : t :=
  mk (store s) (fxqc s) (fxqc_b s) (fxqc_a s) (ba s) (wdg_w_coeffs_b s)
     (wdg_w_coeffs_a s) (wdg_w_accu s) (wdg_q_accu s) l.
Definition set_wdg_w_accu (w : UI_W.t) (s : t) : t :=
  mk (store s) (fxqc s) (fxqc_b s) (fxqc_a s) (ba s) (wdg_w_coeffs_b s)
     (wdg_w_coeffs_a s) w (wdg_q_accu s) (log s).

(** [logger.error(e)] *)
Definition logger_error (e : pyexn) : M t unit :=
  modify (λ s, set_log (log s ++ [LogException e]) s).

(** [fb.fil[0]['fxqc'][name]] *)
Definition fxqc_dict (name : string) : M t loc := λ s,
  match fxqc s !! name with
  | Some l => Done l s
  | None => Raised (KeyError name) s
  end.

(** [fb.fil[0]['fxqc'][name][key]] *)
Definition fxqc_get (name key : string) : M t pyval :=
  l ← fxqc_dict name;
  h ← gets store;
  lift (getitem (deref h l) key).

(** [fb.fil[0]['fxqc'][name][key] = v] *)
Definition fxqc_set (name key : string) (v : pyval) : M t unit :=
  l ← fxqc_dict name;
  modify (λ s, set_store (setitem (store s) l key v) s).

(** [qget_cmb_box(self.wdg_w_accu.cmbW, data=False)] *)
Definition qget_cmb_box_accu : M t string := gets (λ s, UI_W.cmbW (wdg_w_accu s)).

(** A method of [self.wdg_w_accu], run on the shared store and log. *)
Definition on_wdg_w_accu {A} (m : M UI_W.world A) : M t A := λ s,
  let back (w : UI_W.world) :=
    set_wdg_w_accu (UI_W.self w) (set_store (UI_W.store w) (set_log (UI_W.events w) s)) in
  match m (UI_W.World (wdg_w_accu s) (store s) (log s)) with
  | Done a w => Done a (back w)
  | Raised e w => Raised e (back w)
  end.

(** The body of the [try] of [update_accu_settings]: the bit growth
    [A_coeff], which stays unbound when the selection is neither 'full'
    nor 'auto'. *)
Definition bit_growth : M t (option Z) :=
  cmb ← qget_cmb_box_accu;
  if bool_decide (cmb = "full") then
    b ← (λ s, match fxqc_b s with
              | Some b => Done b s
              | None => Raised (KeyError "b") s
              end);
    A_coeff ← lift (int_of_npfloat (ceil_log2 (len b)));
    mret (Some A_coeff)
  else
    cmb ← qget_cmb_box_accu;
    if bool_decide (cmb = "auto") then
      b ← gets (λ s, (ba s).1);
      A_coeff ← lift (int_of_npfloat (ceil_log2 (sum_abs b)));
      mret (Some A_coeff)
    else mret None.

(** Lines 202-207 of [update_accu_settings]: under 'full' and 'auto' the
    accumulator format is derived from the input and the b coefficient
    formats and the bit growth. *)
Definition derive_format (A_coeff : option Z) : M t unit :=
  cmb ← qget_cmb_box_accu;
  if bool_decide (cmb = "full") || bool_decide (cmb = "auto") then
    wf_i ← fxqc_get "QI" "WF";
    wf_c ← fxqc_get "QCB" "WF";
    wf ← lift (py_add wf_i wf_c);
    fxqc_set "QA" "WF" wf;;
    wi_i ← fxqc_get "QI" "WI";
    wi_c ← fxqc_get "QCB" "WI";
    wi ← lift (py_add wi_i wi_c);
    g ← match A_coeff with
        | Some g => mret g
        | None => raise (UnboundLocalError "A_coeff")
        end;
    wi ← lift (py_add wi (PInt g));
    fxqc_set "QA" "WI" wi
  else mret tt.

(** Lines 209-219 of [update_accu_settings]: total word length and 'Q'
    format, the quantization settings, the widget. *)
Definition store_format : M t unit :=
  wi ← fxqc_get "QA" "WI";
  wf ← fxqc_get "QA" "WF";
  w ← lift (py_add wi wf);
  w ← lift (py_add w (PInt 1));
  fxqc_set "QA" "W" w;;
  wi ← fxqc_get "QA" "WI";
  wf ← fxqc_get "QA" "WF";
  q ← lift (py_add (PStr (py_str wi)) (PStr "."));
  q ← lift (py_add q (PStr (py_str wf)));
  fxqc_set "QA" "Q" q;;
  (* QA.update(self.wdg_q_accu.q_dict) *)
  qa ← fxqc_dict "QA";
  lq ← gets (λ s, UI_Q.q_dict (wdg_q_accu s));
  modify (λ s, set_store
                 (<[qa := dict_update (deref (store s) qa) (deref (store s) lq)]>
                    (store s)) s);;
  (* self.wdg_w_accu.dict2ui(QA) *)
  qa ← fxqc_dict "QA";
  on_wdg_w_accu (UI_W.dict2ui (Some qa)).

(** [update_accu_settings()] *)
Definition update_accu_settings : M t unit :=
  r ← try bit_growth;
  match r with
  | inl e => logger_error e
  | inr A_coeff => derive_format A_coeff;; store_format
  end.

(** The dictionary [fb.fil[0]['fxqc'][name]], empty when there is none. *)
Definition sub (name : string) (s : t) : qdict :=
  match fxqc s !! name with
  | Some l => deref (store s) l
  | None => ∅
  end.
Definition QA : t → qdict := sub "QA".
Definition QI : t → qdict := sub "QI".
Definition QCB : t → qdict := sub "QCB".

(** The quantization widget works on the accumulator dictionary itself,
    as after [UI_Q(fb.fil[0]['fxqc']['QA'], ...)] in [_construct_UI]. *)
Definition aliased (s : t) : Prop :=
  fxqc s !! "QA" = Some (UI_Q.q_dict (wdg_q_accu s)).

End IIR_DF1_pyfixp_UI.

(** ** [pyfda.libs.pyfda_fix_lib]: the quantizer [fx.Fixed]

    The class is not among the sources; [quant_coeffs] uses it through the
    interface [FixLib] below.  The module [fx] gives the implementation the
    spec describes. *)

Class FixLib : Type := {
  Fixed : Type;
  (** [fx.Fixed(q_dict)] *)
  Fixed_new : qdict → Fixed;
  (** [Q.frmt = frmt] *)
  set_frmt : string → Fixed → Fixed;
  (** [Q.WF] *)
  get_WF : Fixed → Z;
  (** [Q.fixp(y)] and [Q.float2frmt(y)] on a coefficient array, which may
      be [None] *)
  fixp : Fixed → option (list Q) → pyexn + list Q;
  float2frmt : Fixed → option (list Q) → pyexn + list Q
}.

(** [1 << n] *)
Definition py_lshift_1 (n : Z) : pyexn + Z :=
  if n <? 0 then inl ValueError else inr (Z.shiftl 1 n).

(** [UI_W.quant_coeffs(q_dict, coeffs, to_int)]; the state is the log.
    [array * int] multiplies every element. *)
Definition quant_coeffs `{FixLib} (q_dict : qdict) (coeffs : option (list Q))
    (to_int : bool) : M (list event) (list Q) :=
  let Q_coeff := Fixed_new q_dict in
  let Q_coeff := set_frmt "dec" Q_coeff in
  (if coeffs is None
   then modify (λ log, log ++ [LogError "Coeffs empty!"])
   else mret tt);;
  if to_int then
    y ← lift (float2frmt Q_coeff coeffs);
    scale ← lift (py_lshift_1 (get_WF Q_coeff));
    mret ((λ v, v * inject_Z scale)%Q <$> y)
  else
    lift (fixp Q_coeff coeffs).

Module fx.

Inductive round_mode : Type := Round | Fix | Floor.
Inductive overflow_mode : Type := Wrap | Saturate.

(** Modelled from the spec: the word format of [pyfda_fix_lib], which is
    not among the sources.  "WordFormat: {WI: non-negative integer, WF:
    non-negative integer}, derived W = WI + WF + 1 (one sign bit)". *)
Record WordFormat : Type := { WI : N; WF : N }.

Definition W (f : WordFormat) : N := WI f + WF f + 1.

(** Modelled from the spec: the quantizer settings of [pyfda_fix_lib].
    "QuantizerConfig: {format: WordFormat, round_mode: {Round, Fix,
    Floor}, overflow_mode: {Wrap, Saturate}}". *)
Record QuantizerConfig : Type := {
  format : WordFormat;
  quant : round_mode;
  ovfl : overflow_mode
}.

(** [2^n] as a denominator *)
Definition pow2 (n : N) : positive :=
  match n with
  | N0 => 1%positive
  | Npos p => Pos.pow 2 p
  end.

(** Round half away from zero. *)
Definition round_half_away (x : Q) : Z :=
  if Qle_bool 0 x then Qfloor (x + (1 # 2)) else - Qfloor (- x + (1 # 2)).

(** Truncate toward zero. *)
Definition truncate (x : Q) : Z :=
  if Qle_bool 0 x then Qfloor x else Qceiling x.

Definition apply_round (m : round_mode) (x : Q) : Z :=
  match m with
  | Round => round_half_away x
  | Fix => truncate x
  | Floor => Qfloor x
  end.

(** Overflow handling against [[-2^(W-1), 2^(W-1) - 1]]. *)
Definition apply_overflow (m : overflow_mode) (w : N) (k : Z) : Z :=
  let half := 2 ^ (Z.of_N w - 1) in
  match m with
  | Wrap => (k + half) mod (2 * half) - half
  | Saturate => Z.max (- half) (Z.min (half - 1) k)
  end.

(** Modelled from the spec: [Fixed.fixp] on one value, from
    [pyfda_fix_lib], which is not among the sources.  "1. Scale value by
    2^WF.  2. Apply rounding: Round -> round half away from zero; Fix ->
    truncate toward zero; Floor -> round toward negative infinity.  3.
    Apply overflow handling against the representable signed integer range
    [-2^(W-1), 2^(W-1) - 1]: Wrap: reduce modulo 2^W, remapped into the
    signed range; Saturate: clamp to the nearest range boundary.  4.
    Unscale by 2^-WF to yield the quantized real value." *)
Definition quantize (x : Q) (c : QuantizerConfig) : Q :=
  let wf := WF (format c) in
  let scaled := (x * inject_Z (Zpos (pow2 wf)))%Q in
  let k := apply_round (quant c) scaled in
  let k := apply_overflow (ovfl c) (W (format c)) k in
  k # pow2 wf.

(** Modelled from the spec: an instance of [pyfda_fix_lib.Fixed], which is
    not among the sources: the quantizer settings and the display format
    [frmt] ("any display-format setting elsewhere in the system"). *)
Record Fixed : Type := {
  config : QuantizerConfig;
  frmt : string
}.

(** Modelled from the spec: [Fixed.fixp] on an array, from
    [pyfda_fix_lib], which is not among the sources.  Every tap is
    quantized; "a zero-length/absent input is an error (see §7), not a
    zero result", the error kind being "InvalidCoefficients
    (empty/undefined tap sequence)". *)
Definition fixp (q : Fixed) (y : option (list Q)) : pyexn + list Q :=
  match y with
  | None | Some [] => inl InvalidCoefficients
  | Some taps => inr ((λ x, quantize x (config q)) <$> taps)
  end.

Section float2frmt.
(** What [float2frmt] does under display formats other than 'dec'; the
    spec is silent on them. *)
Variable other_formats : Fixed → option (list Q) → pyexn + list Q.

(** Modelled from the spec: [Fixed.float2frmt], from [pyfda_fix_lib],
    which is not among the sources.  Under the display format 'dec' the
    result has "decimal (fixed binary-point) semantics": the quantized
    values themselves. *)
Definition float2frmt (q : Fixed) (y : option (list Q)) : pyexn + list Q :=
  if bool_decide (frmt q = "dec") then fixp q y else other_formats q y.

End float2frmt.

End fx.

(** The library as the spec has it, for any way [from_dict] of reading the
    settings off a quantizer dictionary and any treatment [other_formats] of
    the display formats besides 'dec'. *)
Definition fx_lib (other_formats : fx.Fixed → option (list Q) → pyexn + list Q)
    (from_dict : qdict → fx.Fixed) : FixLib := {|
  Fixed := fx.Fixed;
  Fixed_new := from_dict;
  set_frmt := λ f q, {| fx.config := fx.config q; fx.frmt := f |};
  get_WF := λ q, Z.of_N (fx.WF (fx.format (fx.config q)));
  fixp := fx.fixp;
  float2frmt := fx.float2frmt other_formats
|}.

(** ** What the sizing claims say, and states to try them on *)

(** The sizing failed gracefully: the method returned, the exception is in
    the log and the filter dictionary and the widgets are as before. *)
Definition sizing_error_retained (s : IIR_DF1_pyfixp_UI.t) : Prop :=
  ∃ e,
    IIR_DF1_pyfixp_UI.update_accu_settings s =
    Done tt (IIR_DF1_pyfixp_UI.set_log
               (IIR_DF1_pyfixp_UI.log s ++ [LogException e]) s).

(** [k] is the ceiling of the binary logarithm of [x]. *)
Definition is_ceil_log2 (x : Q) (k : Z) : Prop :=
  (2 ^ (k - 1) < x)%Q ∧ (x <= 2 ^ k)%Q.

(** A filter with input format 0.15, b coefficient format 2.13, a
    coefficient format 1.14 and accumulator 0.30; all widgets built over
    the dictionaries of [fb.fil[0]['fxqc']]. *)
Definition demo_heap (qca : qdict) : heap :=
  {[ 1%positive := {[ "WI" := PInt 0; "WF" := PInt 30; "W" := PInt 31;
                      "ovfl" := PStr "wrap"; "quant" := PStr "floor" ]};
     2%positive := {[ "WI" := PInt 0; "WF" := PInt 15; "W" := PInt 16 ]};
     3%positive := {[ "WI" := PInt 2; "WF" := PInt 13; "W" := PInt 16 ]};
     4%positive := qca ]}.

Definition demo_qca : qdict :=
  {[ "WI" := PInt 1; "WF" := PInt 14; "W" := PInt 16 ]}.

Definition demo_w_accu (mode : string) : UI_W.t :=
  UI_W.mk (Some 1%positive) (PStr "w_accu") (PInt 0) (PInt 30) (PInt 31)
    "0" "30" mode.

Definition demo_w_coeffs (l : loc) (name : string) (wi wf : Z) : UI_W.t :=
  UI_W.mk (Some l) (PStr name) (PInt wi) (PInt wf) (PInt (wi + wf + 1))
    (pretty wi) (pretty wf) "auto".

Definition demo (mode : string) (b a : list Q) (qca : qdict)
  : IIR_DF1_pyfixp_UI.t :=
  IIR_DF1_pyfixp_UI.mk (demo_heap qca)
    {[ "QA" := 1%positive; "QI" := 2%positive; "QCB" := 3%positive;
       "QCA" := 4%positive ]}
    (Some b) (Some a) (b, a)
    (demo_w_coeffs 3 "w_coeff_b" 2 13) (demo_w_coeffs 4 "w_coeff_a" 1 14)
    (demo_w_accu mode)
    (UI_Q.mk 1%positive "wrap" "floor") [].




(** ** [fixpoint_helpers.UI_Q]: [ui2dict] *)

Module UI_Q_methods.

(** The widget with what [ui2dict] reads besides the attributes: its name
    and the current texts of its two combo boxes. *)
Record t : Type := mk {
  base : UI_Q.t;
  wdg_name : pyval;
  cmbOvfl : string;
  cmbQuant : string
}.

Record world : Type := World {
  self : t;
  store : heap;
  events : list event
}.

(** The two entries [ui2dict] writes to the quantizer dictionary. *)
Definition mode_entries (x : UI_Q.t) : qdict :=
  {[ "ovfl" := PStr (UI_Q.ovfl x); "quant" := PStr (UI_Q.quant x) ]}.

(** [ui2dict()]; [sender] is the object name of [self.sender()], if the
    call comes from a signal. *)
Definition ui2dict (sender : option string) : M world unit :=
  x ← gets self;
  let b := UI_Q.mk (UI_Q.q_dict (base x)) (cmbOvfl x) (UI_Q.quant (base x)) in
  let b := UI_Q.mk (UI_Q.q_dict b) (UI_Q.ovfl b) (cmbQuant x) in
  modify (λ w, World (mk b (wdg_name x) (cmbOvfl x) (cmbQuant x))
                 (store w) (events w));;
  modify (λ w, World (self w)
                 (<[UI_Q.q_dict b :=
                      dict_update (deref (store w) (UI_Q.q_dict b)) (mode_entries b)]>
                    (store w))
                 (events w));;
  match sender with
  | Some obj_name =>
      modify (λ w, World (self w) (store w)
                     (events w ++
                        [Emit [("wdg_name", py_str (wdg_name x)); ("ui", obj_name)]]))
  | None => mret tt
  end.

End UI_Q_methods.

(** ** [iir_df1_pyfixp_ui.IIR_DF1_pyfixp_UI]: the other methods *)

Module IIR_methods.
Import IIR_DF1_pyfixp_UI.

Definition set_fxqc (m : gmap string loc) (s : t) : t :=
  mk (store s) m (fxqc_b s) (fxqc_a s) (ba s) (wdg_w_coeffs_b s)
     (wdg_w_coeffs_a s) (wdg_w_accu s) (wdg_q_accu s) (log s).
Definition set_fxqc_b (b : list Q) (s : t) : t :=
  mk (store s) (fxqc s) (Some b) (fxqc_a s) (ba s) (wdg_w_coeffs_b s)
     (wdg_w_coeffs_a s) (wdg_w_accu s) (wdg_q_accu s) (log s).
Definition set_fxqc_a (a : list Q) (s : t) : t :=
  mk (store s) (fxqc s) (fxqc_b s) (Some a) (ba s) (wdg_w_coeffs_b s)
     (wdg_w_coeffs_a s) (wdg_w_accu s) (wdg_q_accu s) (log s).
Definition set_wdg_w_coeffs_b (w : UI_W.t) (s : t) : t :=
  mk (store s) (fxqc s) (fxqc_b s) (fxqc_a s) (ba s) w
     (wdg_w_coeffs_a s) (wdg_w_accu s) (wdg_q_accu s) (log s).
Definition set_wdg_w_coeffs_a (w : UI_W.t) (s : t) : t :=
  mk (store s) (fxqc s) (fxqc_b s) (fxqc_a s) (ba s) (wdg_w_coeffs_b s)
     w (wdg_w_accu s) (wdg_q_accu s) (log s).

Definition tell (e : event) : M t unit :=
  modify (λ s, set_log (log s ++ [e]) s).

(** A method of one of the word-format widgets, run on the shared store and
    log. *)
Definition on_widget {A} (get : t → UI_W.t) (set : UI_W.t → t → t)
    (m : M UI_W.world A) : M t A := λ s,
  let back (w : UI_W.world) :=
    set (UI_W.self w) (set_store (UI_W.store w) (set_log (UI_W.events w) s)) in
  match m (UI_W.World (get s) (store s) (log s)) with
  | Done a w => Done a (back w)
  | Raised e w => Raised e (back w)
  end.

(** [self.<widget>.q_dict] of a constructed widget.  ([__init__] always
    leaves a dictionary there; for a widget without one the model raises.) *)
Definition widget_q_dict (get : t → UI_W.t) : M t loc := λ s,
  match UI_W.q_dict (get s) with
  | Some l => Done l s
  | None => Raised (AttributeError "q_dict") s
  end.

(** The three blocks of [ui2dict] of the form
    [if name not in fxqc_dict: fxqc_dict.update({name: w.q_dict}) ...
     else: fxqc_dict[name].update(w.q_dict)]. *)
Definition store_settings (name : string) (get : t → UI_W.t) : M t unit :=
  m ← gets fxqc;
  match m !! name with
  | None =>
      l ← widget_q_dict get;
      modify (λ s, set_fxqc (<[name := l]> (fxqc s)) s);;
      tell (LogWarning ("Empty dict 'fxqc['" +:+ name +:+ "]'!"))
  | Some l =>
      lw ← widget_q_dict get;
      modify (λ s, set_store
                     (<[l := dict_update (deref (store s) l) (deref (store s) lw)]>
                        (store s)) s)
  end.

(** A call of [quant_coeffs], which writes to the log only. *)
Definition call_quant_coeffs `{FixLib} (q_dict : qdict) (coeffs : list Q)
    : M t (list Q) := λ s,
  match quant_coeffs q_dict (Some coeffs) false (log s) with
  | Done y l => Done y (set_log l s)
  | Raised e l => Raised e (set_log l s)
  end.

(** [ui2dict()]; the dictionary it returns is [fb.fil[0]['fxqc']] itself. *)
Definition ui2dict `{FixLib} : M t unit :=
  store_settings "QA" wdg_w_accu;;
  store_settings "QCB" wdg_w_coeffs_b;;
  store_settings "QCA" wdg_w_coeffs_a;;
  lb ← widget_q_dict wdg_w_coeffs_b;
  s ← gets id;
  b ← call_quant_coeffs (deref (store s) lb) (ba s).1;
  modify (set_fxqc_b b);;
  la ← widget_q_dict wdg_w_coeffs_a;
  s ← gets id;
  a ← call_quant_coeffs (deref (store s) la) (ba s).2;
  modify (set_fxqc_a a).

(** The three blocks of [dict2ui] of the form
    [if name not in fxqc_dict: fxqc_dict.update({name: {}})]. *)
Definition ensure_dict (name : string) : M t unit :=
  m ← gets fxqc;
  match m !! name with
  | None =>
      modify (λ s, let l := fresh (dom (store s)) in
                   set_fxqc (<[name := l]> (fxqc s))
                     (set_store (<[l := ∅]> (store s)) s));;
      tell (LogWarning (name +:+ " key missing"))
  | Some _ => mret tt
  end.

(** [dict2ui()] *)
Definition dict2ui : M t unit :=
  ensure_dict "QA";;
  ensure_dict "QCB";;
  ensure_dict "QCA";;
  qcb ← fxqc_dict "QCB";
  on_widget wdg_w_coeffs_b set_wdg_w_coeffs_b (UI_W.dict2ui (Some qcb));;
  qca ← fxqc_dict "QCA";
  on_widget wdg_w_coeffs_a set_wdg_w_coeffs_a (UI_W.dict2ui (Some qca));;
  update_accu_settings.

(** [dict_sig[key]] *)
Definition sig_get (dict_sig : gmap string string) (key : string) : M t string :=
  match dict_sig !! key with
  | Some v => mret v
  | None => raise (KeyError key)
  end.

(** What [process_sig_rx] decides for a signal that has the key 'ui':
    whether to go on to the update at its end. *)
Definition dispatch `{FixLib} (dict_sig : gmap string string) : M t bool :=
  name ← sig_get dict_sig "wdg_name";
  if bool_decide (name = "w_coeff_b") || bool_decide (name = "w_coeff_a") then
    ui2dict;; mret true
  else
    name ← sig_get dict_sig "wdg_name";
    if bool_decide (name = "w_accu") then
      cmbW ← qget_cmb_box_accu;
      ui ← sig_get dict_sig "ui";
      if bool_decide (cmbW = "full") || bool_decide (cmbW = "auto")
         || bool_decide (ui = "WF") || bool_decide (ui = "WI")
      then mret true
      else if bool_decide (cmbW = "man") then mret false
      else mret true
    else
      name ← sig_get dict_sig "wdg_name";
      if bool_decide (name = "q_accu") then mret true
      else
        name ← sig_get dict_sig "wdg_name";
        tell (LogError ("Unknown widget name '" +:+ name +:+ "'"));;
        mret false.

(** [process_sig_rx(dict_sig)].  The log texts leave out the pretty-printed
    dictionary and the module name. *)
Definition process_sig_rx `{FixLib} (dict_sig : gmap string string) : M t unit :=
  tell (LogWarning "sig_rx");;
  if bool_decide (is_Some (dict_sig !! "ui")) then
    go_on ← dispatch dict_sig;
    if go_on : bool then
      ui2dict;;
      tell (Emit [("fx_sim", "specs_changed")])
    else mret tt
  else
    name ← sig_get dict_sig "wdg_name";
    tell (LogError ("Unknown key '" +:+ name +:+ "' (should be 'ui')")).

(** [update_q_coeff(dict_sig)]; the two warnings show [fxqc['b']] and
    [fxqc['a']], which must be there. *)
Definition update_q_coeff `{FixLib} (dict_sig : gmap string string) : M t unit :=
  tell (LogDebug "update q_coeff - dict_sig");;
  ui2dict;;
  (λ s, match fxqc_b s with
        | Some _ => Done tt s
        | None => Raised (KeyError "b") s
        end);;
  tell (LogWarning "b");;
  (λ s, match fxqc_a s with
        | Some _ => Done tt s
        | None => Raised (KeyError "a") s
        end);;
  tell (LogWarning "a");;
  process_sig_rx dict_sig.

End IIR_methods.

(** ** What a method leaves alone *)

(** However the computation ends, the state it ends in is related to the
    state it started from. *)
Definition preserves {S A} (R : S → S → Prop) (m : M S A) : Prop :=
  ∀ s, R s (final (m s)).

Definition is_signal (e : event) : bool :=
  match e with
  | Emit _ => true
  | _ => false
  end.

(** The stream [l'] continues [l] with log records only: nothing was
    emitted. *)
Definition logs_only (l l' : list event) : Prop :=
  ∃ evs, l' = l ++ evs ∧ Forall (λ e, is_signal e = false) evs.

(** What a method of [UI_W] that reads dictionaries only may change: the
    numeric attributes and the two texts of the widget, and the log. *)
Definition display_only (w w' : UI_W.world) : Prop :=
  UI_W.store w' = UI_W.store w ∧
  UI_W.q_dict (UI_W.self w') = UI_W.q_dict (UI_W.self w) ∧
  UI_W.wdg_name (UI_W.self w') = UI_W.wdg_name (UI_W.self w) ∧
  UI_W.cmbW (UI_W.self w') = UI_W.cmbW (UI_W.self w) ∧
  logs_only (UI_W.events w) (UI_W.events w').

(** What [update_accu_settings] may change: the accumulator dictionary, the
    display of the accumulator widget, and the log.  The bindings of
    [fb.fil[0]['fxqc']], every other dictionary, the coefficients and the
    other widgets stay. *)
Definition accu_only (s s' : IIR_DF1_pyfixp_UI.t) : Prop :=
  IIR_DF1_pyfixp_UI.fxqc s' = IIR_DF1_pyfixp_UI.fxqc s ∧
  IIR_DF1_pyfixp_UI.fxqc_b s' = IIR_DF1_pyfixp_UI.fxqc_b s ∧
  IIR_DF1_pyfixp_UI.fxqc_a s' = IIR_DF1_pyfixp_UI.fxqc_a s ∧
  IIR_DF1_pyfixp_UI.ba s' = IIR_DF1_pyfixp_UI.ba s ∧
  IIR_DF1_pyfixp_UI.wdg_w_coeffs_b s' = IIR_DF1_pyfixp_UI.wdg_w_coeffs_b s ∧
  IIR_DF1_pyfixp_UI.wdg_w_coeffs_a s' = IIR_DF1_pyfixp_UI.wdg_w_coeffs_a s ∧
  IIR_DF1_pyfixp_UI.wdg_q_accu s' = IIR_DF1_pyfixp_UI.wdg_q_accu s ∧
  UI_W.q_dict (IIR_DF1_pyfixp_UI.wdg_w_accu s')
    = UI_W.q_dict (IIR_DF1_pyfixp_UI.wdg_w_accu s) ∧
  UI_W.wdg_name (IIR_DF1_pyfixp_UI.wdg_w_accu s')
    = UI_W.wdg_name (IIR_DF1_pyfixp_UI.wdg_w_accu s) ∧
  UI_W.cmbW (IIR_DF1_pyfixp_UI.wdg_w_accu s')
    = UI_W.cmbW (IIR_DF1_pyfixp_UI.wdg_w_accu s) ∧
  (∀ l, IIR_DF1_pyfixp_UI.fxqc s !! "QA" ≠ Some l →
        deref (IIR_DF1_pyfixp_UI.store s') l = deref (IIR_DF1_pyfixp_UI.store s) l) ∧
  logs_only (IIR_DF1_pyfixp_UI.log s) (IIR_DF1_pyfixp_UI.log s').

(** [accu_only], for a run that knows where the accumulator dictionary
    is. *)
Definition accu_only_at (l : loc) (s s' : IIR_DF1_pyfixp_UI.t) : Prop :=
  IIR_DF1_pyfixp_UI.fxqc s !! "QA" = Some l → accu_only s s'.

(** ** States for the examples *)

(** A filter dictionary over the store [h] with the entries [m], quantized
    coefficients [b] (if any), and the accumulator's quantization widget over
    the dictionary at [q]. *)
Definition demo_over (h : heap) (m : gmap string loc) (b : option (list Q))
    (q : loc) (mode : string) : IIR_DF1_pyfixp_UI.t :=
  IIR_DF1_pyfixp_UI.mk h m b b ([1; 1; 1]%Q, [1]%Q)
    (demo_w_coeffs 3 "w_coeff_b" 2 13) (demo_w_coeffs 4 "w_coeff_a" 1 14)
    (demo_w_accu mode) (UI_Q.mk q "wrap" "floor") [].

(** The store of [demo] with an input format that lacks 'WI'. *)
Definition heap_no_input_WI : heap :=
  <[2%positive := {[ "WF" := PInt 15 ]}]> (demo_heap demo_qca).

(** The store of [demo] with one more dictionary, a quantizer dictionary of
    its own that carries a stale 'W'. *)
Definition heap_split : heap :=
  <[5%positive := {[ "ovfl" := PStr "sat"; "W" := PInt 99 ]}]>
    (demo_heap demo_qca).

Definition demo_fxqc : gmap string loc :=
  {[ "QA" := 1%positive; "QI" := 2%positive; "QCB" := 3%positive;
     "QCA" := 4%positive ]}.

(** ** The widgets as [_construct_UI] leaves them *)

(** The widget [x] works on the dictionary [fb.fil[0]['fxqc'][name]]
    itself, as after [UI_W(fb.fil[0]['fxqc'][name], ...)] over a non-empty
    dictionary. *)
Definition wired_to (name : string) (x : UI_W.t) (s : IIR_DF1_pyfixp_UI.t)
    : Prop :=
  ∃ l, IIR_DF1_pyfixp_UI.fxqc s !! name = Some l ∧
       UI_W.q_dict x = Some l ∧
       is_Some (IIR_DF1_pyfixp_UI.store s !! l).

Definition wired (s : IIR_DF1_pyfixp_UI.t) : Prop :=
  wired_to "QA" (IIR_DF1_pyfixp_UI.wdg_w_accu s) s ∧
  wired_to "QCB" (IIR_DF1_pyfixp_UI.wdg_w_coeffs_b s) s ∧
  wired_to "QCA" (IIR_DF1_pyfixp_UI.wdg_w_coeffs_a s) s.

(** What handling a signal may change once the widgets are wired: the
    quantized coefficients [fxqc['b']], [fxqc['a']] and the event stream. *)
Definition coeffs_only (s s' : IIR_DF1_pyfixp_UI.t) : Prop :=
  IIR_DF1_pyfixp_UI.store s' = IIR_DF1_pyfixp_UI.store s ∧
  IIR_DF1_pyfixp_UI.fxqc s' = IIR_DF1_pyfixp_UI.fxqc s ∧
  IIR_DF1_pyfixp_UI.ba s' = IIR_DF1_pyfixp_UI.ba s ∧
  IIR_DF1_pyfixp_UI.wdg_w_coeffs_b s' = IIR_DF1_pyfixp_UI.wdg_w_coeffs_b s ∧
  IIR_DF1_pyfixp_UI.wdg_w_coeffs_a s' = IIR_DF1_pyfixp_UI.wdg_w_coeffs_a s ∧
  IIR_DF1_pyfixp_UI.wdg_w_accu s' = IIR_DF1_pyfixp_UI.wdg_w_accu s ∧
  IIR_DF1_pyfixp_UI.wdg_q_accu s' = IIR_DF1_pyfixp_UI.wdg_q_accu s.

Definition coeffs_only_wired (s s' : IIR_DF1_pyfixp_UI.t) : Prop :=
  wired s → coeffs_only s s'.

(** The coefficients [fixp] returns for [coeffs] under the settings of
    [fb.fil[0]['fxqc'][name]], with the format forced to 'dec'. *)
Definition quantized `{FixLib} (name : string) (coeffs : list Q)
    (s : IIR_DF1_pyfixp_UI.t) : pyexn + list Q :=
  fixp (set_frmt "dec" (Fixed_new (IIR_DF1_pyfixp_UI.sub name s))) (Some coeffs).

(** A quantizer library to run the examples with: the quantizer of module
    [fx] with the settings 2.13, round, saturate, whatever the dictionary. *)
Definition demo_lib : FixLib :=
  fx_lib (λ _ _, inl ValueError)
    (λ _, {| fx.config := {| fx.format := {| fx.WI := 2; fx.WF := 13 |};
                             fx.quant := fx.Round; fx.ovfl := fx.Saturate |};
             fx.frmt := "dec" |}).

(** The entries of [fb.fil[0]['fxqc']] that are dictionaries stay as they
    are. *)
Definition same_fxqc (s s' : IIR_DF1_pyfixp_UI.t) : Prop :=
  IIR_DF1_pyfixp_UI.fxqc s' = IIR_DF1_pyfixp_UI.fxqc s.

(** [fb.fil[0]['fxqc'][name]] after [ui2dict]: the entry there was, or else
    the dictionary of the widget [x]. *)
Definition bound_after (name : string) (x : UI_W.t) (s : IIR_DF1_pyfixp_UI.t)
    : option loc :=
  match IIR_DF1_pyfixp_UI.fxqc s !! name with
  | Some l => Some l
  | None => UI_W.q_dict x
  end.

(** The filter of [demo] over any store [h] and entries [m] of
    [fb.fil[0]['fxqc']], with the accumulator's quantization widget over the
    dictionary at [q]. *)
Definition demo_in (h : heap) (m : gmap string loc) (b a : list Q) (q : loc)
    (mode : string) : IIR_DF1_pyfixp_UI.t :=
  IIR_DF1_pyfixp_UI.mk h m (Some b) (Some a) (b, a)
    (demo_w_coeffs 3 "w_coeff_b" 2 13) (demo_w_coeffs 4 "w_coeff_a" 1 14)
    (demo_w_accu mode) (UI_Q.mk q "wrap" "floor") [].

(** [demo] when [fb.fil[0]['fxqc']] has no entry 'QA' (a filter dictionary
    that does not have accumulator settings yet, the case of
    [if 'QA' not in fxqc_dict] in [dict2ui]).  The widgets hold the
    dictionaries they were constructed over; the one of the accumulator
    widgets, at location 1, carries the format 0.30. *)
Definition demo_without_QA (mode : string) (b a : list Q)
    : IIR_DF1_pyfixp_UI.t :=
  demo_in (demo_heap demo_qca) (delete "QA" demo_fxqc) b a 1%positive mode.


(** * Proofs *)

(** ** The store *)

Lemma deref_insert (h : heap) l d l' :
  deref (<[l := d]> h) l' = if decide (l = l') then d else deref h l'.
Proof. unfold deref. rewrite lookup_insert. by case_decide. Qed.

Lemma lookup_setitem_ne (h : heap) l k v l' k' :
  k ≠ k' → deref (setitem h l k v) l' !! k' = deref h l' !! k'.
Proof.
  intros Hk. unfold setitem. rewrite deref_insert.
  case_decide; [subst|done]. by rewrite lookup_insert_ne.
Qed.

Lemma lookup_setitem_eq (h : heap) l k v :
  deref (setitem h l k v) l !! k = Some v.
Proof.
  unfold setitem. rewrite deref_insert, decide_True by done.
  by rewrite lookup_insert_eq.
Qed.

Lemma dict_update_self (d : qdict) : dict_update d d = d.
Proof.
  unfold dict_update. apply map_eq. intros k.
  rewrite lookup_union. by destruct (d !! k).
Qed.

(** ** Running computations *)

Lemma bind_Done {S A B} (m : M S A) (f : A → M S B) s a s' :
  m s = Done a s' → (m ≫= f) s = f a s'.
Proof. unfold mbind, M_bind. by intros ->. Qed.

Lemma bind_Raised {S A B} (m : M S A) (f : A → M S B) s e s' :
  m s = Raised e s' → (m ≫= f) s = Raised e s'.
Proof. unfold mbind, M_bind. by intros ->. Qed.

Lemma dict2ui_run (w : UI_W.world) l vi vf :
  deref (UI_W.store w) l !! "WI" = Some vi →
  deref (UI_W.store w) l !! "WF" = Some vf →
  let wi := safe_eval vi (UI_W.WI (UI_W.self w)) in
  let wf := safe_eval vf (UI_W.WF (UI_W.self w)) in
  UI_W.dict2ui (Some l) w =
  Done tt (UI_W.World
             (UI_W.set_W (PInt (wf + wi + 1))
                (UI_W.set_ledWF (pretty wf)
                   (UI_W.set_WF (PInt wf)
                      (UI_W.set_ledWI (pretty wi)
                         (UI_W.set_WI (PInt wi) (UI_W.self w))))))
             (UI_W.store w) (UI_W.events w)).
Proof.
  intros Hi Hf wi wf. unfold UI_W.dict2ui.
  erewrite bind_Done by reflexivity. lazy beta.
  erewrite bind_Done by reflexivity. lazy beta.
  erewrite bind_Done by reflexivity. lazy beta zeta.
  rewrite Hi, Hf.
  reflexivity.
Qed.

(** ** numpy's [ceil(log2(x))] *)

Lemma ceil_log2_len (b : list Q) :
  b ≠ [] → ceil_log2 (len b) = Finite (Z.log2_up (Z.of_nat (length b))).
Proof.
  intros Hb. unfold ceil_log2, len. cbn [Qnum Qden inject_Z].
  destruct (Z.of_nat (length b)) as [|n|n] eqn:Hn.
  - destruct b; [done | cbn in Hn; lia].
  - destruct (Z.leb_spec 1 (Z.pos n)); [|lia].
    f_equal. f_equal. rewrite Z.div_1_r. lia.
  - lia.
Qed.

Lemma Qpower_2_nonneg k : 0 <= k → (2 ^ k == inject_Z (2 ^ k))%Q.
Proof. intros Hk. by rewrite (Zpower_Qpower 2 k). Qed.

Lemma Qpower_2_neg j : 0 <= j → (2 ^ (- j) == 1 / inject_Z (2 ^ j))%Q.
Proof.
  intros Hj. rewrite Qpower_opp, (Qpower_2_nonneg j Hj).
  unfold Qdiv. by rewrite Qmult_1_l.
Qed.

Lemma ceil_log2_spec (x : Q) :
  (0 < x)%Q → ∃ k, ceil_log2 x = Finite k ∧ is_ceil_log2 x k.
Proof.
  destruct x as [n d]. intros Hpos. unfold Qlt in Hpos. cbn [Qnum Qden] in Hpos.
  destruct n as [|n|n]; [lia| |lia]. clear Hpos.
  unfold ceil_log2, is_ceil_log2. cbn [Qnum Qden].
  destruct (Z.leb_spec (Z.pos d) (Z.pos n)) as [Hle|Hlt].
  - set (c := (Z.pos n + Z.pos d - 1) / Z.pos d).
    assert (Hc1 : Z.pos d * c <= Z.pos n + Z.pos d - 1).
    { apply Z.mul_div_le. lia. }
    assert (Hc2 : Z.pos n + Z.pos d - 1 < Z.pos d * (c + 1)).
    { pose proof (Z.mul_succ_div_gt (Z.pos n + Z.pos d - 1) (Z.pos d)).
      unfold c. lia. }
    assert (Hc : 1 <= c) by nia.
    exists (Z.log2_up c). split; [done|].
    destruct (Z.eq_dec c 1) as [Hc'|Hc'].
    + clearbody c. subst c. change (Z.log2_up 1) with 0.
      change (2 ^ (0 - 1))%Q with (1 # 2)%Q. change (2 ^ 0)%Q with 1%Q.
      unfold Qlt, Qle. cbn. lia.
    + pose proof (Z.log2_up_spec c ltac:(lia)) as [Hlo Hhi].
      assert (Hk : 0 < Z.log2_up c) by (apply Z.log2_up_pos; lia).
      replace (Z.pred (Z.log2_up c)) with (Z.log2_up c - 1) in Hlo by lia.
      split.
      * rewrite (Qpower_2_nonneg (Z.log2_up c - 1)) by lia.
        unfold Qlt. cbn. nia.
      * rewrite (Qpower_2_nonneg (Z.log2_up c)) by lia. unfold Qle. cbn. nia.
  - set (m := Z.pos d / Z.pos n).
    assert (Hm1 : Z.pos n * m <= Z.pos d) by (apply Z.mul_div_le; lia).
    assert (Hm2 : Z.pos d < Z.pos n * (m + 1)).
    { pose proof (Z.mul_succ_div_gt (Z.pos d) (Z.pos n)). unfold m. lia. }
    assert (Hm : 1 <= m) by nia.
    exists (- Z.log2 m). split; [done|].
    pose proof (Z.log2_spec m ltac:(lia)) as [Hlo Hhi].
    pose proof (Z.log2_nonneg m) as Hj.
    replace (- Z.log2 m - 1) with (- (Z.succ (Z.log2 m))) by lia.
    rewrite !Qpower_2_neg by lia.
    assert (0 < 2 ^ Z.log2 m) by (apply Z.pow_pos_nonneg; lia).
    assert (0 < 2 ^ Z.succ (Z.log2 m)) by (apply Z.pow_pos_nonneg; lia).
    split.
    + apply Qlt_shift_div_r; [unfold Qlt; cbn; lia|].
      unfold Qlt. cbn. nia.
    + apply Qle_shift_div_l; [unfold Qlt; cbn; lia|].
      unfold Qle. cbn. nia.
Qed.

Lemma is_ceil_log2_unique x k j : is_ceil_log2 x k → is_ceil_log2 x j → k = j.
Proof.
  assert (Hlt : ∀ a b, is_ceil_log2 x a → is_ceil_log2 x b → ¬ a < b).
  { intros a b [_ Ha] [Hb _] Hab.
    assert (2 ^ a <= 2 ^ (b - 1))%Q as Hp
      by (apply Qpower_le_compat_l; [lia | done]).
    apply (Qlt_irrefl x).
    eapply Qle_lt_trans; [exact Ha|]. eapply Qle_lt_trans; [exact Hp|done]. }
  intros Hk Hj. pose proof (Hlt k j Hk Hj). pose proof (Hlt j k Hj Hk). lia.
Qed.

Lemma is_ceil_log2_proper x y k : (x == y)%Q → is_ceil_log2 x k → is_ceil_log2 y k.
Proof. unfold is_ceil_log2. by intros ->. Qed.

Lemma sum_abs_nonneg taps : (0 <= sum_abs taps)%Q.
Proof.
  unfold sum_abs. induction taps as [|x taps IH]; [done|].
  cbn. pose proof (Qabs_nonneg x).
  replace 0%Q with (0 + 0)%Q by done. by apply Qplus_le_compat.
Qed.

Lemma ceil_log2_zero x : (x == 0)%Q → ceil_log2 x = NegInf.
Proof.
  unfold Qeq. cbn. intros Hx. unfold ceil_log2.
  replace (Qnum x) with 0 by lia. done.
Qed.

(** ** The accumulator sizing, block by block *)

Section accumulator.
Import IIR_DF1_pyfixp_UI.

Lemma fxqc_dict_Done s name l :
  fxqc s !! name = Some l → fxqc_dict name s = Done l s.
Proof. unfold fxqc_dict. by intros ->. Qed.

Lemma fxqc_get_Done s name key l v :
  fxqc s !! name = Some l → deref (store s) l !! key = Some v →
  fxqc_get name key s = Done v s.
Proof.
  intros Hl Hv. unfold fxqc_get.
  erewrite bind_Done by by apply fxqc_dict_Done.
  unfold mbind, M_bind, gets, lift, getitem. by rewrite Hv.
Qed.

Lemma fxqc_set_Done s name key v l :
  fxqc s !! name = Some l →
  fxqc_set name key v s = Done tt (set_store (setitem (store s) l key v) s).
Proof.
  intros Hl. unfold fxqc_set.
  by erewrite bind_Done by by apply fxqc_dict_Done.
Qed.

Lemma sub_lookup s name key v :
  sub name s !! key = Some v →
  ∃ l, fxqc s !! name = Some l ∧ deref (store s) l !! key = Some v.
Proof.
  unfold sub. destruct (fxqc s !! name) as [l|]; [eauto | done].
Qed.

Ltac prim :=
  first
    [ reflexivity
    | eapply fxqc_get_Done; [eassumption |];
      cbn [store set_store];
      repeat (rewrite lookup_setitem_ne by done);
      first [eassumption | apply lookup_setitem_eq]
    | eapply fxqc_set_Done; eassumption
    | eapply fxqc_dict_Done; eassumption ].

Ltac run := lazy beta iota; erewrite bind_Done; [| solve [prim] ].

Lemma derive_format_run s g lqa wi_i wf_i wi_c wf_c :
  UI_W.cmbW (wdg_w_accu s) = "full" ∨ UI_W.cmbW (wdg_w_accu s) = "auto" →
  fxqc s !! "QA" = Some lqa →
  QI s !! "WI" = Some (PInt wi_i) → QI s !! "WF" = Some (PInt wf_i) →
  QCB s !! "WI" = Some (PInt wi_c) → QCB s !! "WF" = Some (PInt wf_c) →
  derive_format (Some g) s =
  Done tt (set_store
             (setitem (setitem (store s) lqa "WF" (PInt (wf_i + wf_c)))
                lqa "WI" (PInt (wi_i + wi_c + g))) s).
Proof.
  intros Hm Hqa HiI HiF HcI HcF.
  apply sub_lookup in HiI as (lqi & Hqi & HiI).
  apply sub_lookup in HiF as (? & ? & HiF). simplify_eq.
  apply sub_lookup in HcI as (lqcb & Hqcb & HcI).
  apply sub_lookup in HcF as (? & ? & HcF). simplify_eq.
  unfold derive_format. run.
  replace (bool_decide _ || bool_decide _) with true
    by (destruct Hm as [-> | ->]; done).
  do 9 run. lazy beta iota.
  erewrite fxqc_set_Done by eassumption. reflexivity.
Qed.

Lemma derive_format_skip s A_coeff :
  UI_W.cmbW (wdg_w_accu s) ≠ "full" → UI_W.cmbW (wdg_w_accu s) ≠ "auto" →
  derive_format A_coeff s = Done tt s.
Proof.
  intros H1 H2. unfold derive_format. run.
  by rewrite !bool_decide_eq_false_2.
Qed.

Lemma store_format_run s lqa wi wf :
  fxqc s !! "QA" = Some lqa → aliased s →
  deref (store s) lqa !! "WI" = Some (PInt wi) →
  deref (store s) lqa !! "WF" = Some (PInt wf) →
  ∃ s', store_format s = Done tt s' ∧
        word_format (QA s') = Some (wi, wf, wi + wf + 1) ∧
        QA s' !! "Q" = Some (PStr ((pretty wi +:+ ".") +:+ pretty wf)) ∧
        UI_W.attr_format (wdg_w_accu s') =
          Some (Z.max 0 wi, Z.max 0 wf, Z.max 0 wf + Z.max 0 wi + 1) ∧
        log s' = log s.
Proof.
  intros Hqa Hal Hi Hf. unfold aliased in Hal. rewrite Hqa in Hal.
  injection Hal as Hal.
  eexists. split.
  - unfold store_format. do 12 run.
    erewrite bind_Done; [|reflexivity]. lazy beta.
    cbn [wdg_q_accu set_store store]. rewrite <- Hal, dict_update_self.
    run. lazy beta. unfold on_wdg_w_accu.
    cbn [wdg_w_accu set_store store log].
    erewrite dict2ui_run; cbn [UI_W.store UI_W.self UI_W.events].
    + reflexivity.
    + rewrite deref_insert, decide_True by done.
      rewrite !lookup_setitem_ne by done. exact Hi.
    + rewrite deref_insert, decide_True by done.
      rewrite !lookup_setitem_ne by done. exact Hf.
  - unfold QA, sub, word_format.
    cbn [fxqc store log wdg_w_accu set_wdg_w_accu set_store set_log].
    rewrite Hqa, !deref_insert, !decide_True by done.
    rewrite !lookup_setitem_ne by done.
    rewrite !lookup_setitem_eq. rewrite Hi, Hf.
    repeat split; reflexivity.
Qed.


Lemma update_accu_settings_failed s e :
  bit_growth s = Raised e s →
  update_accu_settings s = Done tt (set_log (log s ++ [LogException e]) s).
Proof.
  intros Hg. unfold update_accu_settings.
  erewrite bind_Done; [| unfold try; rewrite Hg; reflexivity].
  reflexivity.
Qed.

Lemma update_accu_settings_sized s g wi_i wf_i wi_c wf_c :
  bit_growth s = Done (Some g) s →
  UI_W.cmbW (wdg_w_accu s) = "full" ∨ UI_W.cmbW (wdg_w_accu s) = "auto" →
  aliased s →
  QI s !! "WI" = Some (PInt wi_i) → QI s !! "WF" = Some (PInt wf_i) →
  QCB s !! "WI" = Some (PInt wi_c) → QCB s !! "WF" = Some (PInt wf_c) →
  ∃ s', update_accu_settings s = Done tt s' ∧
        word_format (QA s') =
          Some (wi_i + wi_c + g, wf_i + wf_c,
                (wi_i + wi_c + g) + (wf_i + wf_c) + 1) ∧
        derived_W (UI_W.attr_format (wdg_w_accu s')) ∧
        log s' = log s.
Proof.
  intros Hg Hm Hal HiI HiF HcI HcF.
  destruct (store_format_run
              (set_store
                 (setitem (setitem (store s) (UI_Q.q_dict (wdg_q_accu s))
                             "WF" (PInt (wf_i + wf_c)))
                    (UI_Q.q_dict (wdg_q_accu s)) "WI"
                    (PInt (wi_i + wi_c + g))) s)
              (UI_Q.q_dict (wdg_q_accu s))
              (wi_i + wi_c + g) (wf_i + wf_c))
    as (s' & Hrun & Hfmt & _ & Hattr & Hlog); try exact Hal.
  { apply lookup_setitem_eq. }
  { cbn [store set_store]. rewrite lookup_setitem_ne by done.
    apply lookup_setitem_eq. }
  exists s'. split; [|split; [exact Hfmt|split; [|exact Hlog]]].
  - unfold update_accu_settings.
    erewrite bind_Done; [| unfold try; rewrite Hg; reflexivity].
    lazy beta iota.
    erewrite bind_Done; [exact Hrun|].
    by eapply derive_format_run.
  - rewrite Hattr. eexists _, _. f_equal. f_equal. lia.
Qed.


(** ** The bit growth *)

Lemma bit_growth_full s b :
  UI_W.cmbW (wdg_w_accu s) = "full" → fxqc_b s = Some b →
  bit_growth s =
  match int_of_npfloat (ceil_log2 (len b)) with
  | inr g => Done (Some g) s
  | inl e => Raised e s
  end.
Proof.
  intros Hm Hb. unfold bit_growth.
  erewrite bind_Done by reflexivity. lazy beta. rewrite Hm.
  rewrite bool_decide_eq_true_2 by done.
  erewrite bind_Done by (rewrite Hb; reflexivity).
  unfold mbind, M_bind, lift. by destruct (int_of_npfloat _).
Qed.

Lemma bit_growth_auto s :
  UI_W.cmbW (wdg_w_accu s) = "auto" →
  bit_growth s =
  match int_of_npfloat (ceil_log2 (sum_abs (ba s).1)) with
  | inr g => Done (Some g) s
  | inl e => Raised e s
  end.
Proof.
  intros Hm. unfold bit_growth.
  erewrite bind_Done by reflexivity. lazy beta. rewrite Hm.
  rewrite bool_decide_eq_false_2 by done.
  erewrite bind_Done by reflexivity. lazy beta. rewrite Hm.
  rewrite bool_decide_eq_true_2 by done.
  erewrite bind_Done by reflexivity.
  unfold mbind, M_bind, lift. by destruct (int_of_npfloat _).
Qed.

Lemma bit_growth_cases s :
  (∃ e, bit_growth s = Raised e s)
  ∨ (∃ g, bit_growth s = Done (Some g) s
          ∧ (UI_W.cmbW (wdg_w_accu s) = "full"
             ∨ UI_W.cmbW (wdg_w_accu s) = "auto"))
  ∨ (bit_growth s = Done None s
     ∧ UI_W.cmbW (wdg_w_accu s) ≠ "full"
     ∧ UI_W.cmbW (wdg_w_accu s) ≠ "auto").
Proof.
  destruct (decide (UI_W.cmbW (wdg_w_accu s) = "full")) as [Hf|Hf].
  - destruct (fxqc_b s) as [b|] eqn:Hb.
    + rewrite (bit_growth_full s b Hf Hb).
      destruct (int_of_npfloat _); eauto 6.
    + left. exists (KeyError "b"). unfold bit_growth.
      erewrite bind_Done by reflexivity. lazy beta.
      rewrite bool_decide_eq_true_2 by done.
      erewrite bind_Raised; [reflexivity|]. by rewrite Hb.
  - destruct (decide (UI_W.cmbW (wdg_w_accu s) = "auto")) as [Ha|Ha].
    + rewrite (bit_growth_auto s Ha).
      destruct (int_of_npfloat _); eauto 6.
    + right. right. split; [|done]. unfold bit_growth.
      erewrite bind_Done by reflexivity. lazy beta.
      rewrite bool_decide_eq_false_2 by done.
      erewrite bind_Done by reflexivity. lazy beta.
      by rewrite bool_decide_eq_false_2 by done.
Qed.

End accumulator.

(** ** Accumulator sizing: the claims *)

Section sizing_claims.
Import IIR_DF1_pyfixp_UI.

(** Sizing under 'full' as [_construct_UI] wires the widgets, the
    quantization widget working on [fb.fil[0]['fxqc']['QA']] itself: for a
    non-empty list [b] of quantized b coefficients, [update_accu_settings]
    returns and leaves the accumulator format
    [WI = WI_input + WI_coeff + G], [WF = WF_input + WF_coeff],
    [W = WI + WF + 1] in [fb.fil[0]['fxqc']['QA']], where [G] is the ceiling
    of the binary logarithm of the number of taps; eight taps give
    [G = 3]. *)
Theorem accu_full_sizing (s : t) (b : list Q) (wi_i wf_i wi_c wf_c : Z) :
  UI_W.cmbW (wdg_w_accu s) = "full" →
  fxqc_b s = Some b → b ≠ [] →
  aliased s →
  QI s !! "WI" = Some (PInt wi_i) → QI s !! "WF" = Some (PInt wf_i) →
  QCB s !! "WI" = Some (PInt wi_c) → QCB s !! "WF" = Some (PInt wf_c) →
  ∃ G s',
    ceil_log2 (len b) = Finite G ∧ is_ceil_log2 (len b) G ∧
    (length b = 8%nat → G = 3) ∧
    update_accu_settings s = Done tt s' ∧
    word_format (QA s') =
      Some (wi_i + wi_c + G, wf_i + wf_c,
            (wi_i + wi_c + G) + (wf_i + wf_c) + 1).
Proof.
  intros Hm Hb Hne Hal HiI HiF HcI HcF.
  destruct (ceil_log2_spec (len b)) as (G & HG & Hspec).
  { unfold len, Qlt. cbn. destruct b; [done | cbn; lia]. }
  assert (Hg : bit_growth s = Done (Some G) s).
  { rewrite (bit_growth_full s b Hm Hb), HG. done. }
  destruct (update_accu_settings_sized s G wi_i wf_i wi_c wf_c)
    as (s' & Hrun & Hfmt & _); auto.
  exists G, s'. repeat split; try done; try apply Hspec.
  intros H8. rewrite ceil_log2_len in HG by done. rewrite H8 in HG.
  by injection HG as <-.
Qed.

Lemma accu_full_sizing_witness :
  ∃ G s',
    ceil_log2 (len [1; 1; 1; 1; 1; 1; 1; 1]%Q) = Finite G ∧
    is_ceil_log2 (len [1; 1; 1; 1; 1; 1; 1; 1]%Q) G ∧
    (length [1; 1; 1; 1; 1; 1; 1; 1]%Q = 8%nat → G = 3) ∧
    update_accu_settings (demo "full" [1; 1; 1; 1; 1; 1; 1; 1]%Q [1]%Q demo_qca)
      = Done tt s' ∧
    word_format (QA s') = Some (0 + 2 + G, 15 + 13, (0 + 2 + G) + (15 + 13) + 1).
Proof.
  apply (accu_full_sizing
           (demo "full" [1; 1; 1; 1; 1; 1; 1; 1]%Q [1]%Q demo_qca)
           [1; 1; 1; 1; 1; 1; 1; 1]%Q 0 15 2 13);
    first [ reflexivity | discriminate ].
Defined.

(** Sizing under 'auto' as [_construct_UI] wires the widgets: for b
    coefficients whose absolute values have a positive sum,
    [update_accu_settings] returns and leaves the accumulator
    format [WI = WI_input + WI_coeff + G], [WF = WF_input + WF_coeff] (and
    [W = WI + WF + 1]) in [fb.fil[0]['fxqc']['QA']], where [G] is the
    ceiling of the binary logarithm of that sum; a sum of 5 gives
    [G = 3]. *)
Theorem accu_auto_sizing (s : t) (wi_i wf_i wi_c wf_c : Z) :
  UI_W.cmbW (wdg_w_accu s) = "auto" →
  (0 < sum_abs (ba s).1)%Q →
  aliased s →
  QI s !! "WI" = Some (PInt wi_i) → QI s !! "WF" = Some (PInt wf_i) →
  QCB s !! "WI" = Some (PInt wi_c) → QCB s !! "WF" = Some (PInt wf_c) →
  ∃ G s',
    ceil_log2 (sum_abs (ba s).1) = Finite G ∧
    is_ceil_log2 (sum_abs (ba s).1) G ∧
    ((sum_abs (ba s).1 == 5)%Q → G = 3) ∧
    update_accu_settings s = Done tt s' ∧
    word_format (QA s') =
      Some (wi_i + wi_c + G, wf_i + wf_c,
            (wi_i + wi_c + G) + (wf_i + wf_c) + 1).
Proof.
  intros Hm Hpos Hal HiI HiF HcI HcF.
  destruct (ceil_log2_spec _ Hpos) as (G & HG & Hspec).
  assert (Hg : bit_growth s = Done (Some G) s).
  { rewrite (bit_growth_auto s Hm), HG. done. }
  destruct (update_accu_settings_sized s G wi_i wf_i wi_c wf_c)
    as (s' & Hrun & Hfmt & _); auto.
  exists G, s'. repeat split; try done; try apply Hspec.
  intros H5. apply (is_ceil_log2_unique 5); [|done].
  by apply (is_ceil_log2_proper (sum_abs (ba s).1)).
Qed.

Lemma accu_auto_sizing_witness :
  ∃ G s',
    ceil_log2 (sum_abs [1; -2; 3 # 2; -1 # 2]%Q) = Finite G ∧
    is_ceil_log2 (sum_abs [1; -2; 3 # 2; -1 # 2]%Q) G ∧
    ((sum_abs [1; -2; 3 # 2; -1 # 2] == 5)%Q → G = 3) ∧
    update_accu_settings (demo "auto" [1; -2; 3 # 2; -1 # 2]%Q [1]%Q demo_qca)
      = Done tt s' ∧
    word_format (QA s') = Some (0 + 2 + G, 15 + 13, (0 + 2 + G) + (15 + 13) + 1).
Proof.
  apply (accu_auto_sizing
           (demo "auto" [1; -2; 3 # 2; -1 # 2]%Q [1]%Q demo_qca) 0 15 2 13);
    reflexivity.
Defined.

(** C3, as stated, fails: under 'full' the bit growth comes from the
    number of taps alone, so two zero taps are sized like any two taps:
    nothing is logged and the accumulator format 0.30 becomes 3.28. *)
Lemma accu_sizing_error_full_zero_sum :
  let s := demo "full" [0; 0]%Q [1]%Q demo_qca in
  UI_W.cmbW (wdg_w_accu s) = "full" ∧
  (sum_abs (ba s).1 == 0)%Q ∧
  word_format (QA s) = Some (0, 30, 0 + 30 + 1) ∧
  ¬ sizing_error_retained s ∧
  log (final (update_accu_settings s)) = [] ∧
  word_format (QA (final (update_accu_settings s))) = Some (3, 28, 32).
Proof.
  repeat split; try reflexivity.
  intros [e He].
  assert (Hlog : log (final (update_accu_settings
                               (demo "full" [0; 0]%Q [1]%Q demo_qca))) = [])
    by reflexivity.
  rewrite He in Hlog. discriminate Hlog.
Qed.

(** C3, amended.  When the logarithm of the bit growth is undefined --
    under 'full' with an empty list of quantized b coefficients, under
    'auto' with b coefficients whose absolute values sum to zero (the empty
    array among them) -- [update_accu_settings] returns, the exception is
    logged, and [fb.fil[0]], the stored accumulator format included, and
    the widgets are unchanged. *)
Theorem accu_sizing_error_retained (s : t) :
  (UI_W.cmbW (wdg_w_accu s) = "full" ∧ fxqc_b s = Some [])
  ∨ (UI_W.cmbW (wdg_w_accu s) = "auto" ∧ (sum_abs (ba s).1 == 0)%Q) →
  sizing_error_retained s ∧
  ∃ s', update_accu_settings s = Done tt s' ∧
        log s' = log s ++ [LogException OverflowError] ∧
        QA s' = QA s ∧ word_format (QA s') = word_format (QA s) ∧
        wdg_w_accu s' = wdg_w_accu s.
Proof.
  intros Hcase.
  assert (Hg : bit_growth s = Raised OverflowError s).
  { destruct Hcase as [[Hm Hb] | [Hm Hz]].
    - by rewrite (bit_growth_full s [] Hm Hb).
    - by rewrite (bit_growth_auto s Hm), (ceil_log2_zero _ Hz). }
  apply update_accu_settings_failed in Hg. split.
  - by exists OverflowError.
  - eexists. split; [exact Hg|]. done.
Qed.

Lemma accu_sizing_error_retained_witness :
  sizing_error_retained (demo "auto" [] [1]%Q demo_qca) ∧
  ∃ s', update_accu_settings (demo "auto" [] [1]%Q demo_qca) = Done tt s' ∧
        log s' = log (demo "auto" [] [1]%Q demo_qca)
                   ++ [LogException OverflowError] ∧
        QA s' = QA (demo "auto" [] [1]%Q demo_qca) ∧
        word_format (QA s') = word_format (QA (demo "auto" [] [1]%Q demo_qca)) ∧
        wdg_w_accu s' = wdg_w_accu (demo "auto" [] [1]%Q demo_qca).
Proof.
  apply (accu_sizing_error_retained (demo "auto" [] [1]%Q demo_qca)).
  right. split; reflexivity.
Defined.

(** The model run on the demonstration filter. *)

Example demo_full_8_taps :
  word_format
    (QA (final (update_accu_settings
                  (demo "full" [1; 1; 1; 1; 1; 1; 1; 1]%Q [1]%Q demo_qca))))
  = Some (5, 28, 34).
Proof. reflexivity. Qed.

Example demo_auto_sum_5 :
  word_format
    (QA (final (update_accu_settings
                  (demo "auto" [1; -2; 3 # 2; -1 # 2]%Q [1]%Q demo_qca))))
  = Some (5, 28, 34).
Proof. reflexivity. Qed.

(** Small coefficients make the growth negative; the dictionary keeps the
    negative [WI], the widget shows the sanitized one. *)
Example demo_auto_small_taps :
  let s' := final (update_accu_settings
                     (demo "auto" [1 # 10]%Q [1]%Q demo_qca)) in
  word_format (QA s') = Some (-1, 28, 28) ∧
  UI_W.attr_format (wdg_w_accu s') = Some (0, 28, 29).
Proof. split; reflexivity. Qed.

Example demo_manual :
  word_format
    (QA (final (update_accu_settings (demo "man" [1; -2]%Q [1]%Q demo_qca))))
  = Some (0, 30, 31).
Proof. reflexivity. Qed.

End sizing_claims.

(** ** The word-format widget *)


Lemma word_format_update (d : qdict) (x : UI_W.t) :
  word_format (dict_update d (UI_W.word_entries x)) = UI_W.attr_format x.
Proof.
  unfold word_format, dict_update, UI_W.word_entries, UI_W.attr_format.
  rewrite !lookup_union.
  rewrite lookup_insert_eq.
  rewrite lookup_insert_ne, lookup_insert_eq by done.
  rewrite !lookup_insert_ne, lookup_singleton_eq by done.
  rewrite !union_Some_l. done.
Qed.

Section widget.
Import UI_W.

Lemma ui2dict_run (w : world) sender sarg l :
  q_dict (self w) = Some l →
  let wi := safe_eval (PStr (ledWI (self w))) (WI (self w)) in
  let wf := safe_eval (PStr (ledWF (self w))) (WF (self w)) in
  let x' := set_W (PInt (wi + wf + 1))
              (set_ledWF (pretty wf)
                 (set_WF (PInt wf)
                    (set_ledWI (pretty wi) (set_WI (PInt wi) (self w))))) in
  ∃ evs,
    ui2dict sender sarg w =
    Done tt (World x'
               (<[l := dict_update (deref (store w) l) (word_entries x')]>
                  (store w))
               (events w ++ evs)).
Proof.
  intros Hl wi wf x'.
  unfold ui2dict, mbind, M_bind, gets, on_self, on_store, tell, modify, lift.
  cbn -[safe_eval pretty deref dict_update word_entries insert].
  rewrite Hl.
  destruct sender as [obj_name|].
  - eexists [_; _]. cbn. rewrite <- app_assoc. reflexivity.
  - destruct (bool_decide (sarg = Some "init")); eexists [_]; reflexivity.
Qed.

Lemma dict2ui_cases (w : world) arg l wi0 wf0 w0 :
  dict2ui_arg arg (self w) = Some l →
  attr_format (self w) = Some (wi0, wf0, w0) →
  let q := deref (store w) l in
  let wi := match q !! "WI" with
            | Some v => safe_eval v (PInt wi0)
            | None => wi0
            end in
  let wf := match q !! "WF" with
            | Some v => safe_eval v (PInt wf0)
            | None => wf0
            end in
  ∃ w', dict2ui arg w = Done tt w' ∧
        attr_format (self w') = Some (wi, wf, wf + wi + 1) ∧
        store w' = store w.
Proof.
  intros Harg Hattr q wi wf. unfold attr_format in Hattr.
  destruct (WI (self w)) as [wi1| | |] eqn:HWI; try done.
  destruct (WF (self w)) as [wf1| | |] eqn:HWF; try done.
  destruct (W (self w)) as [w1| | |] eqn:HW; try done.
  simplify_eq.
  subst wi wf q.
  unfold dict2ui, mbind, M_bind, gets, on_self, tell, modify, lift.
  cbn -[safe_eval pretty deref lookup]. rewrite Harg, HWI.
  cbn -[safe_eval pretty deref lookup].
  destruct (_ !! "WI") as [vi|]; destruct (_ !! "WF") as [vf|];
    cbn -[safe_eval pretty deref lookup];
    rewrite ?HWI, ?HWF; cbn -[safe_eval pretty deref lookup];
    (eexists; split; [reflexivity|]); cbn -[safe_eval]; rewrite ?HWI, ?HWF.
  all: unfold attr_format; cbn -[safe_eval]; by rewrite ?HWI, ?HWF.
Qed.

End widget.

(** ** Frame and invariants *)

Section frame_claims.
Import IIR_DF1_pyfixp_UI.

Lemma bit_growth_agree s1 s2 :
  UI_W.cmbW (wdg_w_accu s1) = UI_W.cmbW (wdg_w_accu s2) →
  UI_W.cmbW (wdg_w_accu s1) = "full" ∨ UI_W.cmbW (wdg_w_accu s1) = "auto" →
  fxqc_b s1 = fxqc_b s2 → (ba s1).1 = (ba s2).1 →
  (∃ e, bit_growth s1 = Raised e s1 ∧ bit_growth s2 = Raised e s2)
  ∨ (∃ g, bit_growth s1 = Done (Some g) s1 ∧ bit_growth s2 = Done (Some g) s2).
Proof.
  intros Hm [Hf|Ha] Hb Hba.
  - assert (Hf2 : UI_W.cmbW (wdg_w_accu s2) = "full") by congruence.
    destruct (fxqc_b s1) as [b|] eqn:Hb1.
    + rewrite (bit_growth_full s1 b Hf Hb1), (bit_growth_full s2 b Hf2) by done.
      destruct (int_of_npfloat _); eauto.
    + left. exists (KeyError "b"). unfold bit_growth. split.
      * erewrite bind_Done by reflexivity. lazy beta.
        rewrite bool_decide_eq_true_2 by done.
        erewrite bind_Raised; [reflexivity|]. by rewrite Hb1.
      * erewrite bind_Done by reflexivity. lazy beta.
        rewrite bool_decide_eq_true_2 by done.
        erewrite bind_Raised; [reflexivity|]. by rewrite <- Hb.
  - assert (Ha2 : UI_W.cmbW (wdg_w_accu s2) = "auto") by congruence.
    rewrite (bit_growth_auto s1 Ha), (bit_growth_auto s2 Ha2), <- Hba.
    destruct (int_of_npfloat _); eauto.
Qed.

(** With the quantization widget on [fb.fil[0]['fxqc']['QA']] itself in
    both, two runs of [update_accu_settings] under the same derived policy
    ('full' or 'auto') that agree on the b coefficients (quantized list and
    coefficient array), on the input format [QI] and on the b coefficient
    format [QCB] either both fail to size (each logs the exception and
    keeps its state) or both return with the same accumulator format
    [(WI, WF, W)]: nothing is asked of the a coefficients or of [QCA],
    which may differ between the runs. *)
Theorem accu_sizing_ignores_feedback (s1 s2 : t) (wi_i wf_i wi_c wf_c : Z) :
  UI_W.cmbW (wdg_w_accu s1) = UI_W.cmbW (wdg_w_accu s2) →
  UI_W.cmbW (wdg_w_accu s1) = "full" ∨ UI_W.cmbW (wdg_w_accu s1) = "auto" →
  fxqc_b s1 = fxqc_b s2 → (ba s1).1 = (ba s2).1 →
  QI s1 = QI s2 → QCB s1 = QCB s2 →
  QI s1 !! "WI" = Some (PInt wi_i) → QI s1 !! "WF" = Some (PInt wf_i) →
  QCB s1 !! "WI" = Some (PInt wi_c) → QCB s1 !! "WF" = Some (PInt wf_c) →
  aliased s1 → aliased s2 →
  (sizing_error_retained s1 ∧ sizing_error_retained s2)
  ∨ (∃ s1' s2' f,
       update_accu_settings s1 = Done tt s1' ∧
       update_accu_settings s2 = Done tt s2' ∧
       word_format (QA s1') = Some f ∧ word_format (QA s2') = Some f).
Proof.
  intros Hm Hmode Hb Hba HQI HQCB HiI HiF HcI HcF Hal1 Hal2.
  destruct (bit_growth_agree s1 s2 Hm Hmode Hb Hba)
    as [(e & H1 & H2) | (g & H1 & H2)].
  - left. split; exists e; by apply update_accu_settings_failed.
  - right.
    destruct (update_accu_settings_sized s1 g wi_i wf_i wi_c wf_c)
      as (s1' & Hrun1 & Hfmt1 & _); auto.
    destruct (update_accu_settings_sized s2 g wi_i wf_i wi_c wf_c)
      as (s2' & Hrun2 & Hfmt2 & _);
      rewrite <- ?Hm, <- ?HQI, <- ?HQCB; auto.
    eauto 10.
Qed.

Lemma accu_sizing_ignores_feedback_witness :
  (sizing_error_retained (demo "auto" [1; -2]%Q [1]%Q demo_qca)
   ∧ sizing_error_retained (demo "auto" [1; -2]%Q [1; 1 # 2; -1 # 4]%Q ∅))
  ∨ (∃ s1' s2' f,
       update_accu_settings (demo "auto" [1; -2]%Q [1]%Q demo_qca)
         = Done tt s1' ∧
       update_accu_settings (demo "auto" [1; -2]%Q [1; 1 # 2; -1 # 4]%Q ∅)
         = Done tt s2' ∧
       word_format (QA s1') = Some f ∧ word_format (QA s2') = Some f).
Proof.
  apply (accu_sizing_ignores_feedback
           (demo "auto" [1; -2]%Q [1]%Q demo_qca)
           (demo "auto" [1; -2]%Q [1; 1 # 2; -1 # 4]%Q ∅) 0 15 2 13);
    first [ reflexivity | right; reflexivity ].
Defined.


End frame_claims.

Section widget_claims.
Import UI_W.



End widget_claims.

Section invariant_witness.
Import IIR_DF1_pyfixp_UI.


End invariant_witness.

(** ** Construction of the widget *)

Section construction.
Import UI_W.

Lemma dict_update_singleton_lookup (d : qdict) k v k' :
  dict_update d {[ k := v ]} !! k' = if decide (k = k') then Some v else d !! k'.
Proof.
  unfold dict_update. rewrite lookup_union, lookup_singleton.
  case_decide; [by destruct (d !! k') | by destruct (d !! k')].
Qed.

Lemma apply_kwargs_run kwargs :
  ∀ d w, ∃ d' evs,
    apply_kwargs kwargs d w =
      Done d' (World (self w) (store w) (events w ++ evs)) ∧
    (∀ k, is_Some (d !! k) → is_Some (d' !! k)) ∧
    (∀ k, k ∉ kwargs.*1 → d' !! k = d !! k) ∧
    (∀ k v, NoDup (kwargs.*1) → (k, v) ∈ kwargs → is_Some (d !! k) →
            d' !! k = Some v).
Proof.
  induction kwargs as [|[k0 v0] rest IH]; intros d w.
  - exists d, []. rewrite app_nil_r. destruct w. cbn.
    repeat split; try done. intros k v _ Hin. by apply elem_of_nil in Hin.
  - cbn [apply_kwargs]. destruct (d !! k0) as [v1|] eqn:Hk0.
    + destruct (IH (dict_update d {[ k0 := v0 ]}) w)
        as (d' & evs & Hrun & Hdom & Hout & Hin).
      exists d', evs. split; [exact Hrun|]. repeat split.
      * intros k Hk. apply Hdom. rewrite dict_update_singleton_lookup.
        by case_decide.
      * intros k Hk. cbn in Hk. apply not_elem_of_cons in Hk as [Hne Hk].
        rewrite (Hout k Hk), dict_update_singleton_lookup.
        by rewrite decide_False by done.
      * intros k v Hnd Hel Hsome. cbn in Hnd. apply NoDup_cons in Hnd as [Hfresh Hnd].
        apply elem_of_cons in Hel as [Heq | Hel].
        -- injection Heq as -> ->. rewrite (Hout k0 Hfresh).
           rewrite dict_update_singleton_lookup. by rewrite decide_True.
        -- apply Hin; [done..|]. rewrite dict_update_singleton_lookup.
           by case_decide.
    + destruct (IH d (World (self w) (store w)
                        (events w ++ [LogWarning ("Unknown key " +:+ k0)])))
        as (d' & evs & Hrun & Hdom & Hout & Hin).
      exists d', (LogWarning ("Unknown key " +:+ k0) :: evs).
      split.
      { erewrite bind_Done by reflexivity. rewrite Hrun. cbn.
        by rewrite <- app_assoc. }
      repeat split.
      * exact Hdom.
      * intros k Hk. cbn in Hk. apply not_elem_of_cons in Hk as [Hne Hk].
        by apply Hout.
      * intros k v Hnd Hel Hsome. cbn in Hnd. apply NoDup_cons in Hnd as [Hfresh Hnd].
        apply elem_of_cons in Hel as [Heq | Hel].
        -- injection Heq as -> ->. rewrite Hk0 in Hsome. by destruct Hsome.
        -- by apply Hin.
Qed.

Lemma default_keys (d : qdict) k :
  is_Some (dict_ui_default !! k) → is_Some (dict_update dict_ui_default d !! k).
Proof.
  intros [x Hk]. unfold dict_update. rewrite lookup_union, Hk.
  destruct (d !! k); by eexists.
Qed.




End construction.

(** ** The quantizer *)

Section quantizer.
Import fx.

Lemma pow2_spec n : Zpos (pow2 n) = 2 ^ Z.of_N n.
Proof.
  destruct n as [|p]; [done|]. cbn [pow2 Z.of_N].
  by rewrite Pos2Z.inj_pow.
Qed.

Lemma half_pos (f : WordFormat) : 0 < 2 ^ (Z.of_N (W f) - 1).
Proof. apply Z.pow_pos_nonneg; unfold W; lia. Qed.

Lemma apply_overflow_range m (f : WordFormat) k :
  let half := 2 ^ (Z.of_N (W f) - 1) in
  - half <= apply_overflow m (W f) k <= half - 1.
Proof.
  intros half. pose proof (half_pos f) as Hh. fold half in Hh.
  unfold apply_overflow. fold half. destruct m.
  - pose proof (Z.mod_pos_bound (k + half) (2 * half) ltac:(lia)). lia.
  - lia.
Qed.

Lemma apply_overflow_id m (f : WordFormat) k :
  let half := 2 ^ (Z.of_N (W f) - 1) in
  - half <= k <= half - 1 → apply_overflow m (W f) k = k.
Proof.
  intros half Hk. unfold apply_overflow. fold half. destruct m.
  - rewrite Z.mod_small by lia. lia.
  - lia.
Qed.

Lemma Qfloor_half k : Qfloor (inject_Z k + (1 # 2)) = k.
Proof.
  unfold Qfloor, Qplus, inject_Z. cbn.
  symmetry. apply (Z.div_unique _ _ _ 1); lia.
Qed.

Lemma apply_round_integer m x k : (x == inject_Z k)%Q → apply_round m x = k.
Proof.
  intros Hx.
  assert (Hfl : Qfloor x = k) by (by rewrite (Qfloor_comp _ _ Hx), Qfloor_Z).
  assert (Hce : Qceiling x = k).
  { unfold Qceiling. rewrite (Qfloor_comp (- x) (inject_Z (- k))).
    - rewrite Qfloor_Z. lia.
    - rewrite Hx. unfold Qeq. cbn. lia. }
  destruct m; cbn [apply_round].
  - unfold round_half_away. destruct (Qle_bool 0 x).
    + rewrite (Qfloor_comp _ (inject_Z k + (1 # 2))) by (by rewrite Hx).
      apply Qfloor_half.
    + rewrite (Qfloor_comp _ (inject_Z (- k) + (1 # 2))).
      * rewrite Qfloor_half. lia.
      * rewrite Hx. unfold Qeq. cbn. lia.
  - unfold truncate. by destruct (Qle_bool 0 x).
  - done.
Qed.

Lemma rescale k p : ((k # p) * inject_Z (Zpos p) == inject_Z k)%Q.
Proof. unfold Qeq, Qmult, inject_Z. cbn. lia. Qed.

(** C9. Quantizing a quantized value again under the same settings
    returns it unchanged. *)
Theorem quantize_idempotent (x : Q) (c : QuantizerConfig) :
  quantize (quantize x c) c = quantize x c.
Proof.
  unfold quantize at 1 3.
  set (k := apply_overflow (ovfl c) (W (format c))
              (apply_round (quant c)
                 (x * inject_Z (Zpos (pow2 (WF (format c))))))).
  unfold quantize. fold k.
  rewrite (apply_round_integer _ _ k) by apply rescale.
  rewrite apply_overflow_id; [done|]. apply apply_overflow_range.
Qed.

End quantizer.

(** ** Coefficient quantization *)

Section coefficients.

Lemma quantized_scaled x (c : fx.QuantizerConfig) :
  let k := fx.apply_overflow (fx.ovfl c) (fx.W (fx.format c))
             (fx.apply_round (fx.quant c)
                (x * inject_Z (Zpos (fx.pow2 (fx.WF (fx.format c)))))) in
  (fx.quantize x c * inject_Z (Z.shiftl 1 (Z.of_N (fx.WF (fx.format c))))
   == inject_Z k)%Q.
Proof.
  intros k. unfold fx.quantize. fold k.
  rewrite Z.shiftl_1_l, <- pow2_spec. apply rescale.
Qed.

(** C6. With the quantizer of the spec behind [fx.Fixed], and whatever
    display format the quantizer dictionary carries and whatever the
    library does under other display formats, [quant_coeffs] on a
    non-empty list of taps
    - returns the taps quantized on the binary-point grid of the
      coefficient format, and,
    - when [to_int] is set, returns for each tap the quantized value
      scaled by [2^WF], which is an integer: it equals its own
      truncation.
    Nothing is logged. *)
Theorem quant_coeffs_decimal
    (other_formats : fx.Fixed → option (list Q) → pyexn + list Q)
    (from_dict : qdict → fx.Fixed) (q_dict : qdict) (taps : list Q)
    (log : list event) :
  taps ≠ [] →
  let c := fx.config (from_dict q_dict) in
  let scale := inject_Z (2 ^ Z.of_N (fx.WF (fx.format c))) in
  quant_coeffs (H := fx_lib other_formats from_dict) q_dict (Some taps) false log
    = Done ((λ x, fx.quantize x c) <$> taps) log
  ∧ quant_coeffs (H := fx_lib other_formats from_dict) q_dict (Some taps) true log
    = Done ((λ x, fx.quantize x c * scale)%Q <$> taps) log
  ∧ Forall (λ x, fx.quantize x c * scale
                 == inject_Z (fx.truncate (fx.quantize x c * scale)))%Q taps.
Proof.
  intros Hne c scale. split; [|split].
  - unfold quant_coeffs. erewrite bind_Done by reflexivity.
    cbn. destruct taps; done.
  - unfold quant_coeffs. erewrite bind_Done by reflexivity.
    cbn -[Z.shiftl]. unfold fx.float2frmt. cbn -[Z.shiftl].
    destruct taps as [|t taps]; [done|].
    unfold mbind, M_bind, lift, py_lshift_1. cbn -[Z.shiftl fmap].
    rewrite Z.shiftl_1_l.
    destruct (Z.ltb_spec (Z.of_N (fx.WF (fx.format (fx.config (from_dict q_dict)))))
                0) as [Hneg|_]; [lia|].
    unfold mret, M_ret. f_equal. by rewrite <- list_fmap_compose.
  - apply Forall_forall. intros x _.
    pose proof (quantized_scaled x c) as Hk. cbn zeta in Hk.
    rewrite Z.shiftl_1_l in Hk. fold scale in Hk.
    rewrite Hk at 1. apply Qeq_sym.
    unfold fx.truncate.
    assert (Hfl : ∀ y k, (y == inject_Z k)%Q → Qfloor y = k ∧ Qceiling y = k).
    { intros y k Hy. split.
      - by rewrite (Qfloor_comp _ _ Hy), Qfloor_Z.
      - unfold Qceiling. rewrite (Qfloor_comp (- y) (inject_Z (- k))).
        + rewrite Qfloor_Z. lia.
        + rewrite Hy. unfold Qeq. cbn. lia. }
    destruct (Hfl _ _ Hk) as [-> ->]. by destruct (Qle_bool _ _).
Qed.

Lemma quant_coeffs_decimal_witness :
  let from_dict (_ : qdict) :=
    {| fx.config := {| fx.format := {| fx.WI := 2; fx.WF := 13 |};
                       fx.quant := fx.Round; fx.ovfl := fx.Saturate |};
       fx.frmt := "hex" |} in
  let c := fx.config (from_dict demo_qca) in
  let scale := inject_Z (2 ^ Z.of_N (fx.WF (fx.format c))) in
  let taps := [1 # 3; -5 # 7; 9]%Q in
  quant_coeffs (H := fx_lib (λ _ _, inl ValueError) from_dict) demo_qca
      (Some taps) false []
    = Done ((λ x, fx.quantize x c) <$> taps) []
  ∧ quant_coeffs (H := fx_lib (λ _ _, inl ValueError) from_dict) demo_qca
      (Some taps) true []
    = Done ((λ x, fx.quantize x c * scale)%Q <$> taps) []
  ∧ Forall (λ x, fx.quantize x c * scale
                 == inject_Z (fx.truncate (fx.quantize x c * scale)))%Q taps.
Proof.
  intros from_dict c scale taps.
  apply (quant_coeffs_decimal (λ _ _, inl ValueError) from_dict demo_qca
           taps []).
  discriminate.
Defined.

(** C4, evaluated on the code.  Whatever the quantizer library does,
    [quant_coeffs] itself never aborts: on [None] it logs "Coeffs empty!"
    and then hands [None] to the quantizer all the same; on the empty list
    it logs nothing and hands the empty list to the quantizer.  What the
    caller gets is in both cases whatever the quantizer makes of the
    invalid input. *)
Theorem quant_coeffs_not_aborted `{FixLib} (q_dict : qdict) (log : list event) :
  let Q_coeff := set_frmt "dec" (Fixed_new q_dict) in
  quant_coeffs q_dict None false log
    = lift (fixp Q_coeff None) (log ++ [LogError "Coeffs empty!"])
  ∧ quant_coeffs q_dict (Some []) false log
    = lift (fixp Q_coeff (Some [])) log
  ∧ quant_coeffs q_dict None true log
    = (y ← lift (float2frmt Q_coeff None);
       scale ← lift (py_lshift_1 (get_WF Q_coeff));
       mret ((λ v, v * inject_Z scale)%Q <$> y))
        (log ++ [LogError "Coeffs empty!"]).
Proof. intros Q_coeff. repeat split. Qed.

End coefficients.

(** * Further properties *)

(** ** Frames *)

Lemma preserves_bind {S A B} (R : S → S → Prop) `{!PreOrder R}
    (m : M S A) (f : A → M S B) :
  preserves R m → (∀ a, preserves R (f a)) → preserves R (m ≫= f).
Proof.
  intros Hm Hf s. unfold mbind, M_bind. specialize (Hm s).
  destruct (m s) as [a s1|e s1]; cbn in *; [|done].
  etrans; [exact Hm | apply Hf].
Qed.

Lemma preserves_ret {S A} (R : S → S → Prop) `{!PreOrder R} (a : A) :
  preserves R (mret a : M S A).
Proof. intros s. cbn. reflexivity. Qed.

Lemma preserves_gets {S A} (R : S → S → Prop) `{!PreOrder R} (f : S → A) :
  preserves R (gets f).
Proof. intros s. cbn. reflexivity. Qed.

Lemma preserves_lift {S A} (R : S → S → Prop) `{!PreOrder R} (r : pyexn + A) :
  preserves R (lift r : M S A).
Proof. intros s. unfold lift. destruct r; cbn; reflexivity. Qed.

Lemma preserves_raise {S A} (R : S → S → Prop) `{!PreOrder R} (e : pyexn) :
  preserves R (raise e : M S A).
Proof. intros s. cbn. reflexivity. Qed.

Lemma preserves_modify {S} (R : S → S → Prop) (f : S → S) :
  (∀ s, R s (f s)) → preserves R (modify f).
Proof. intros Hf s. cbn. apply Hf. Qed.

Lemma preserves_try {S A} (R : S → S → Prop) (m : M S A) :
  preserves R m → preserves R (try m).
Proof.
  intros Hm s. specialize (Hm s). unfold try. by destruct (m s).
Qed.

#[local] Instance logs_only_preorder : PreOrder logs_only.
Proof.
  split.
  - intros l. exists []. by rewrite app_nil_r.
  - intros l1 l2 l3 (e1 & -> & H1) (e2 & -> & H2).
    exists (e1 ++ e2). rewrite app_assoc. split; [done|].
    by apply Forall_app.
Qed.

Lemma logs_only_snoc (l : list event) (e : event) :
  is_signal e = false → logs_only l (l ++ [e]).
Proof. intros He. exists [e]. split; [done|]. by constructor. Qed.

#[local] Instance display_only_preorder : PreOrder display_only.
Proof.
  split.
  - intros w. by repeat split.
  - intros w1 w2 w3 (?&?&?&?&?) (?&?&?&?&?).
    repeat split; try congruence. by etrans.
Qed.

#[local] Instance accu_only_preorder : PreOrder accu_only.
Proof.
  split.
  - intros s. by repeat split.
  - intros s1 s2 s3 (H1&?&?&?&?&?&?&?&?&?&Hst1&?) (?&?&?&?&?&?&?&?&?&?&Hst2&?).
    split_and!; try congruence; [|by etrans].
    intros l Hl. rewrite Hst2 by (by rewrite H1). by apply Hst1.
Qed.

Ltac frame_step :=
  first
    [ apply preserves_bind; [tc_solve | | intros ?]
    | apply preserves_ret; tc_solve
    | apply preserves_gets; tc_solve
    | apply preserves_lift; tc_solve
    | apply preserves_raise; tc_solve
    | apply preserves_try ].

Section widget_frames.
Import UI_W.

Lemma on_self_display (f : t → t) :
  (∀ x, q_dict (f x) = q_dict x ∧ wdg_name (f x) = wdg_name x
        ∧ cmbW (f x) = cmbW x) →
  preserves display_only (on_self f).
Proof.
  intros Hf. apply preserves_modify. intros w. cbn.
  destruct (Hf (self w)) as (?&?&?). by repeat split.
Qed.

Lemma tell_display (e : event) :
  is_signal e = false → preserves display_only (tell e).
Proof.
  intros He. apply preserves_modify. intros w. split_and!; try done.
  by apply logs_only_snoc.
Qed.

Lemma dict2ui_display (arg : option loc) : preserves display_only (dict2ui arg).
Proof.
  unfold dict2ui.
  repeat first
    [ frame_step
    | by apply on_self_display
    | by apply tell_display
    | match goal with |- preserves _ (match ?x with _ => _ end) => destruct x end ].
Qed.

End widget_frames.

(** ** The word-format widget: what the two updates touch *)

Section widget_extras.
Import UI_W.

(** X1.  [UI_W.dict2ui] only reads dictionaries: whatever its argument and
    however it ends, the store of dictionaries, the widget's own dictionary
    reference, its name and its combo box are as before, and it adds log
    records only to the event stream, no signal. *)
Theorem dict2ui_reads_only (arg : option loc) (w : world) :
  let w' := final (dict2ui arg w) in
  store w' = store w ∧
  q_dict (self w') = q_dict (self w) ∧
  wdg_name (self w') = wdg_name (self w) ∧
  cmbW (self w') = cmbW (self w) ∧
  ∃ evs, events w' = events w ++ evs ∧ Forall (λ e, is_signal e = false) evs.
Proof. exact (dict2ui_display arg w). Qed.

(** X2.  A dictionary that has neither 'WI' nor 'WF' leaves the widget's
    [WI], [WF] and the two line edits as they are; [dict2ui] logs the two
    warnings and still recomputes [W] from the attributes it kept. *)
Theorem dict2ui_missing_keys (arg : option loc) (w : world) (l : loc)
    (wi wf : Z) :
  dict2ui_arg arg (self w) = Some l →
  deref (store w) l !! "WI" = None →
  deref (store w) l !! "WF" = None →
  WI (self w) = PInt wi → WF (self w) = PInt wf →
  dict2ui arg w =
  Done tt (World (set_W (PInt (wf + wi + 1)) (self w)) (store w)
             (events w ++ [LogWarning "No key 'WI' in dict!";
                           LogWarning "No key 'WF' in dict!"])).
Proof.
  intros Harg Hi Hf HWI HWF.
  unfold dict2ui, mbind, M_bind, gets, on_self, tell, modify, lift.
  cbn -[deref lookup]. rewrite Harg. cbn -[deref lookup].
  rewrite Hi, Hf. cbn -[deref lookup]. rewrite HWI, HWF. cbn.
  by rewrite <- app_assoc.
Qed.

Lemma dict2ui_missing_keys_witness :
  dict2ui None (World (mk (Some 1%positive) (PStr "w") (PInt 3) (PInt 12)
                         (PInt 0) "3" "12" "man")
                  {[ 1%positive := {[ "ovfl" := PStr "wrap" ]} ]} []) =
  Done tt (World (mk (Some 1%positive) (PStr "w") (PInt 3) (PInt 12)
                    (PInt 16) "3" "12" "man")
             {[ 1%positive := {[ "ovfl" := PStr "wrap" ]} ]}
             [LogWarning "No key 'WI' in dict!";
              LogWarning "No key 'WF' in dict!"]).
Proof.
  etrans; [apply (dict2ui_missing_keys None _ 1%positive 3 12); reflexivity|].
  reflexivity.
Defined.

(** X3.  [UI_W.ui2dict] on a widget that has a dictionary always returns,
    and writes the three keys 'WI', 'WF', 'W' of that dictionary and nothing
    else: every other key of it, every other dictionary, and the widget's
    dictionary reference, name and combo box are as before. *)
Theorem ui2dict_frame (w : world) (sender sarg : option string) (l : loc) :
  q_dict (self w) = Some l →
  ∃ w', ui2dict sender sarg w = Done tt w' ∧
        (∀ l', l' ≠ l → store w' !! l' = store w !! l') ∧
        (∀ k, k ≠ "WI" → k ≠ "WF" → k ≠ "W" →
              deref (store w') l !! k = deref (store w) l !! k) ∧
        deref (store w') l !! "WI" = Some (WI (self w')) ∧
        deref (store w') l !! "WF" = Some (WF (self w')) ∧
        deref (store w') l !! "W" = Some (W (self w')) ∧
        q_dict (self w') = Some l ∧
        wdg_name (self w') = wdg_name (self w) ∧
        cmbW (self w') = cmbW (self w).
Proof.
  intros Hl.
  destruct (ui2dict_run w sender sarg l Hl) as (evs & Hrun).
  eexists. split; [exact Hrun|]. cbn [store self].
  split_and!; try done.
  - intros l' Hl'. by rewrite lookup_insert_ne.
  - intros k H1 H2 H3. rewrite deref_insert, decide_True by done.
    unfold dict_update, word_entries. rewrite lookup_union.
    rewrite !lookup_insert_ne, lookup_singleton_ne by done.
    by destruct (deref _ _ !! k).
  - rewrite deref_insert, decide_True by done.
    unfold dict_update, word_entries. rewrite lookup_union.
    by rewrite lookup_insert_eq, union_Some_l.
  - rewrite deref_insert, decide_True by done.
    unfold dict_update, word_entries. rewrite lookup_union.
    rewrite lookup_insert_ne, lookup_insert_eq by done.
    by rewrite union_Some_l.
  - rewrite deref_insert, decide_True by done.
    unfold dict_update, word_entries. rewrite lookup_union.
    rewrite !lookup_insert_ne, lookup_singleton_eq by done.
    by rewrite union_Some_l.
Qed.

Lemma ui2dict_frame_witness :
  ∃ w', ui2dict (Some "WI") None
          (World (mk (Some 1%positive) (PStr "w_accu") (PInt 3) (PInt 12)
                    (PInt 16) "5" "x" "man")
             {[ 1%positive := {[ "ovfl" := PStr "wrap" ]};
                2%positive := {[ "WI" := PInt 7 ]} ]} []) = Done tt w' ∧
        store w' !! 2%positive = Some {[ "WI" := PInt 7 ]} ∧
        deref (store w') 1%positive !! "ovfl" = Some (PStr "wrap") ∧
        deref (store w') 1%positive !! "WI" = Some (PInt 5) ∧
        deref (store w') 1%positive !! "WF" = Some (PInt 12).
Proof.
  destruct (ui2dict_frame
              (World (mk (Some 1%positive) (PStr "w_accu") (PInt 3) (PInt 12)
                        (PInt 16) "5" "x" "man")
                 {[ 1%positive := {[ "ovfl" := PStr "wrap" ]};
                    2%positive := {[ "WI" := PInt 7 ]} ]} [])
              (Some "WI") None 1%positive eq_refl)
    as (w' & Hrun & Hother & Hkeys & HWI & HWF & _).
  exists w'. split; [exact Hrun|].
  rewrite Hother by done. rewrite Hkeys by done.
  rewrite HWI, HWF.
  injection Hrun as <-. by vm_compute.
Defined.

(** X4.  [UI_W.ui2dict] emits exactly one signal when it has a sender,
    carrying the widget's name and the sender's object name, and none
    otherwise; without a sender it logs an error unless it was called with
    ['init']. *)
Theorem ui2dict_signal (w : world) (sender sarg : option string) (l : loc) :
  q_dict (self w) = Some l →
  ∃ w', ui2dict sender sarg w = Done tt w' ∧
        events w' = events w ++
          match sender with
          | Some obj_name =>
              [LogDebug ("sender: " +:+ obj_name);
               Emit [("wdg_name", py_str (wdg_name (self w))); ("ui", obj_name)]]
          | None =>
              if bool_decide (sarg = Some "init")
              then [LogDebug "called by __init__"]
              else [LogError "sender without name!"]
          end.
Proof.
  intros Hl.
  unfold ui2dict, mbind, M_bind, gets, on_self, on_store, tell, modify, lift.
  cbn -[safe_eval pretty deref dict_update word_entries insert].
  rewrite Hl.
  destruct sender as [obj_name|].
  - eexists. split; [reflexivity|]. cbn. by rewrite <- app_assoc.
  - destruct (bool_decide (sarg = Some "init")); eexists; split; reflexivity.
Qed.

Lemma ui2dict_signal_witness :
  ∃ w', ui2dict (Some "WF") None
          (World (mk (Some 1%positive) (PStr "w_coeff_b") (PInt 3) (PInt 12)
                    (PInt 16) "5" "x" "man") ∅ []) = Done tt w' ∧
        events w' = [LogDebug "sender: WF";
                     Emit [("wdg_name", "w_coeff_b"); ("ui", "WF")]].
Proof.
  destruct (ui2dict_signal
              (World (mk (Some 1%positive) (PStr "w_coeff_b") (PInt 3) (PInt 12)
                        (PInt 16) "5" "x" "man") ∅ [])
              (Some "WF") None 1%positive eq_refl)
    as (w' & Hrun & Hev).
  exists w'. split; [exact Hrun|]. exact Hev.
Defined.

End widget_extras.

(** ** The constructor of the word-format widget *)

Section construction_extras.
Import UI_W.

Lemma construct_cases (q : option loc) (kwargs : list (string * pyval))
    (h : heap) :
  (∃ e w1, _construct_UI kwargs (World (blank q) h []) = Raised e w1
           ∧ store w1 = h)
  ∨ (∃ w1, _construct_UI kwargs (World (blank q) h []) = Done tt w1 ∧
           match q_dict_truthy (blank q) h with
           | Some l =>
               q_dict (self w1) = Some l ∧
               store w1 =
                 <[l := dict_update (deref h l) (word_entries (self w1))]> h
           | None =>
               q_dict (self w1) = Some (fresh (dom h)) ∧
               store w1 = <[fresh (dom h) := word_entries (self w1)]> h
           end).
Proof.
  set (d := match q_dict_truthy (blank q) h with
            | Some l => dict_update dict_ui_default (deref h l)
            | None => dict_ui_default
            end).
  assert (Hdef : ∀ k, is_Some (dict_ui_default !! k) → is_Some (d !! k)).
  { intros k Hk. unfold d. destruct (q_dict_truthy _ _); [|done].
    by apply default_keys. }
  destruct (apply_kwargs_run kwargs d (World (blank q) h []))
    as (d' & evs & Hrun & Hdom & _ & _).
  destruct (Hdom "wdg_name" (Hdef "wdg_name" ltac:(eexists; vm_compute; reflexivity)))
    as [name Hname].
  destruct (Hdom "fractional" (Hdef "fractional" ltac:(eexists; vm_compute; reflexivity)))
    as [frac Hfrac].
  destruct (Hdom "WI" (Hdef "WI" ltac:(eexists; vm_compute; reflexivity)))
    as [vwi Hwi].
  destruct (Hdom "WF" (Hdef "WF" ltac:(eexists; vm_compute; reflexivity)))
    as [vwf0 Hwf0].
  destruct (Hdom "combo_items" (Hdef "combo_items" ltac:(eexists; vm_compute; reflexivity)))
    as [items Hitems].
  set (d2 := if negb (truthy frac) then <["WF" := PInt 0]> d' else d').
  assert (Hwi2 : d2 !! "WI" = Some vwi).
  { unfold d2. destruct (negb _); [by rewrite lookup_insert_ne|done]. }
  assert (Hit2 : d2 !! "combo_items" = Some items).
  { unfold d2. destruct (negb _); [by rewrite lookup_insert_ne|done]. }
  assert (∃ vwf, d2 !! "WF" = Some vwf) as [vwf Hwf2].
  { unfold d2. destruct (negb _); [rewrite lookup_insert_eq|]; eauto. }
  unfold _construct_UI.
  erewrite bind_Done by reflexivity. lazy beta.
  erewrite bind_Done by reflexivity. lazy beta zeta.
  cbn [self store]. fold d.
  erewrite bind_Done by exact Hrun. lazy beta.
  unfold mbind, M_bind, gets, lift, getitem, on_self, on_store, tell, modify,
    butLock_clicked.
  rewrite Hname. lazy beta iota. rewrite Hfrac. lazy beta iota zeta.
  fold d2. rewrite Hwi2. lazy beta iota. rewrite Hwf2. lazy beta iota.
  cbn [self store events].
  destruct (py_add vwi vwf) as [e|sum]; [left; eauto|].
  destruct (py_add sum (PInt 1)) as [e|sum1]; [left; eauto|].
  destruct (py_int sum1) as [e|w]; [left; eauto|].
  right. lazy beta iota. rewrite Hit2.
  unfold q_dict_truthy.
  cbn [self store events q_dict set_W set_WF set_WI set_wdg_name blank].
  destruct q as [l|]; [destruct (bool_decide (deref h l = ∅))|];
    (eexists; split; [reflexivity|]); cbn; eauto.
Qed.

(** X5.  Constructed without a dictionary, or over an empty one (which
    [if self.q_dict:] takes for none), the widget makes a dictionary of its
    own holding exactly its 'WI', 'WF', 'W'.  Every dictionary there was
    stays as it is; in particular an empty dictionary that was passed in
    stays empty and is not the widget's dictionary.  When the constructor
    raises, no dictionary has changed. *)
Theorem init_allocates (q : option loc) (kwargs : list (string * pyval))
    (h : heap) :
  (∀ l, q = Some l → deref h l = ∅) →
  match __init__ q kwargs h with
  | Done _ w =>
      ∃ l', q_dict (self w) = Some l' ∧ h !! l' = None ∧
            deref (store w) l' = word_entries (self w) ∧
            (∀ l, l ≠ l' → store w !! l = h !! l) ∧
            (∀ l, q = Some l → is_Some (h !! l) →
                  l ≠ l' ∧ store w !! l = Some ∅)
  | Raised _ w => store w = h
  end.
Proof.
  intros Hq.
  assert (Hfalse : q_dict_truthy (blank q) h = None).
  { unfold q_dict_truthy. cbn [q_dict blank]. destruct q as [l|]; [|done].
    by rewrite bool_decide_eq_true_2 by by apply Hq. }
  unfold __init__.
  destruct (construct_cases q kwargs h)
    as [(e & w1 & Hrun & Hst) | (w1 & Hrun & Hw1)].
  { by erewrite bind_Raised by exact Hrun. }
  erewrite bind_Done by exact Hrun. rewrite Hfalse in Hw1.
  destruct Hw1 as [Hl Hst].
  destruct (ui2dict_run w1 None (Some "init") _ Hl) as [evs Hrun2].
  rewrite Hrun2. cbn [self store].
  set (l' := fresh (dom h)) in *.
  assert (Hfresh : h !! l' = None).
  { apply not_elem_of_dom. apply is_fresh. }
  exists l'. split_and!.
  - exact Hl.
  - exact Hfresh.
  - rewrite deref_insert, decide_True by done. rewrite Hst.
    rewrite deref_insert, decide_True by done.
    apply map_eq. intros k. unfold dict_update, word_entries.
    rewrite lookup_union. cbn [WI WF W set_W set_ledWF set_WF set_ledWI set_WI].
    destruct (decide (k = "WI")) as [->|?];
      [by rewrite !lookup_insert_eq|].
    destruct (decide (k = "WF")) as [->|?];
      [by rewrite !(lookup_insert_ne _ "WI"), !lookup_insert_eq by done|].
    destruct (decide (k = "W")) as [->|?];
      [by rewrite !lookup_insert_ne, !lookup_singleton_eq by done|].
    by rewrite !lookup_insert_ne, !lookup_singleton_ne by done.
  - intros l Hne. rewrite lookup_insert_ne by done. rewrite Hst.
    by rewrite lookup_insert_ne by done.
  - intros l -> [d Hd].
    assert (l ≠ l') by (intros ->; by rewrite Hfresh in Hd).
    split; [done|]. rewrite lookup_insert_ne by done. rewrite Hst.
    rewrite lookup_insert_ne by done. rewrite Hd. f_equal.
    specialize (Hq l eq_refl). unfold deref in Hq. by rewrite Hd in Hq.
Qed.

Lemma init_allocates_witness :
  match __init__ (Some 1%positive) [("WI", PInt 2)] {[ 1%positive := ∅ ]} with
  | Done _ w =>
      ∃ l', q_dict (self w) = Some l' ∧
            ({[ 1%positive := ∅ ]} : heap) !! l' = None ∧
            deref (store w) l' = word_entries (self w) ∧
            (∀ l, l ≠ l' → store w !! l = ({[ 1%positive := ∅ ]} : heap) !! l) ∧
            (∀ l, Some 1%positive = Some l →
                  is_Some (({[ 1%positive := ∅ ]} : heap) !! l) →
                  l ≠ l' ∧ store w !! l = Some ∅)
  | Raised _ w => store w = {[ 1%positive := ∅ ]}
  end.
Proof.
  apply (init_allocates (Some 1%positive) [("WI", PInt 2)] {[ 1%positive := ∅ ]}).
  intros l [= <-]. reflexivity.
Defined.

(** X6.  Constructed over a non-empty dictionary, the widget keeps that
    very dictionary and writes only its keys 'WI', 'WF', 'W': the defaults
    and the keyword arguments do not leak into it, every other key and every
    other dictionary stay as they are.  When the constructor raises, no
    dictionary has changed. *)
Theorem init_keeps_dict (l : loc) (kwargs : list (string * pyval)) (h : heap) :
  deref h l ≠ ∅ →
  match __init__ (Some l) kwargs h with
  | Done _ w =>
      q_dict (self w) = Some l ∧
      (∀ l', l' ≠ l → store w !! l' = h !! l') ∧
      (∀ k, k ≠ "WI" → k ≠ "WF" → k ≠ "W" →
            deref (store w) l !! k = deref h l !! k) ∧
      word_format (deref (store w) l) = attr_format (self w)
  | Raised _ w => store w = h
  end.
Proof.
  intros Hne.
  assert (Htrue : q_dict_truthy (blank (Some l)) h = Some l).
  { unfold q_dict_truthy. cbn [q_dict blank].
    by rewrite bool_decide_eq_false_2. }
  unfold __init__.
  destruct (construct_cases (Some l) kwargs h)
    as [(e & w1 & Hrun & Hst) | (w1 & Hrun & Hw1)].
  { by erewrite bind_Raised by exact Hrun. }
  erewrite bind_Done by exact Hrun. rewrite Htrue in Hw1.
  destruct Hw1 as [Hl Hst].
  destruct (ui2dict_run w1 None (Some "init") _ Hl) as [evs Hrun2].
  rewrite Hrun2. cbn [self store].
  split_and!.
  - exact Hl.
  - intros l' Hl'. rewrite lookup_insert_ne by done. rewrite Hst.
    by rewrite lookup_insert_ne by done.
  - intros k H1 H2 H3. rewrite deref_insert, decide_True by done. rewrite Hst.
    rewrite deref_insert, decide_True by done.
    unfold dict_update, word_entries. rewrite !lookup_union.
    rewrite !lookup_insert_ne, !lookup_singleton_ne by done.
    by destruct (deref h l !! k).
  - rewrite deref_insert, decide_True by done. apply word_format_update.
Qed.

Lemma init_keeps_dict_witness :
  match __init__ (Some 1%positive) [("WI", PInt 2); ("label", PStr "x")]
          {[ 1%positive := {[ "ovfl" := PStr "wrap" ]} ]} with
  | Done _ w =>
      q_dict (self w) = Some 1%positive ∧
      (∀ l', l' ≠ 1%positive →
             store w !! l' =
             ({[ 1%positive := {[ "ovfl" := PStr "wrap" ]} ]} : heap) !! l') ∧
      (∀ k, k ≠ "WI" → k ≠ "WF" → k ≠ "W" →
            deref (store w) 1%positive !! k =
            deref {[ 1%positive := {[ "ovfl" := PStr "wrap" ]} ]} 1%positive !! k) ∧
      word_format (deref (store w) 1%positive) = attr_format (self w)
  | Raised _ w => store w = {[ 1%positive := {[ "ovfl" := PStr "wrap" ]} ]}
  end.
Proof.
  apply (init_keeps_dict 1%positive [("WI", PInt 2); ("label", PStr "x")]
           {[ 1%positive := {[ "ovfl" := PStr "wrap" ]} ]}).
  by vm_compute.
Defined.

End construction_extras.

(** ** The quantization widget, and two widgets on one dictionary *)

Section quantization_widget.

Lemma word_entries_keys (x : UI_W.t) k :
  is_Some (UI_W.word_entries x !! k) ↔ k = "WI" ∨ k = "WF" ∨ k = "W".
Proof.
  unfold UI_W.word_entries. split.
  - intros [v Hv].
    apply lookup_insert_Some in Hv as [[<- _]|[_ Hv]]; [by left|].
    apply lookup_insert_Some in Hv as [[<- _]|[_ Hv]]; [by right; left|].
    apply lookup_singleton_Some in Hv as [<- _]. by right; right.
  - intros [-> | [-> | ->]]; eexists; reflexivity.
Qed.

Lemma mode_entries_keys (x : UI_Q.t) k :
  is_Some (UI_Q_methods.mode_entries x !! k) ↔ k = "ovfl" ∨ k = "quant".
Proof.
  unfold UI_Q_methods.mode_entries. split.
  - intros [v Hv].
    apply lookup_insert_Some in Hv as [[<- _]|[_ Hv]]; [by left|].
    apply lookup_singleton_Some in Hv as [<- _]. by right.
  - intros [-> | ->]; eexists; reflexivity.
Qed.

Lemma quant_ui2dict_run (w : UI_Q_methods.world) (sender : option string) :
  let x := UI_Q_methods.self w in
  let b := UI_Q.mk (UI_Q.q_dict (UI_Q_methods.base x))
             (UI_Q_methods.cmbOvfl x) (UI_Q_methods.cmbQuant x) in
  UI_Q_methods.ui2dict sender w =
  Done tt (UI_Q_methods.World
             (UI_Q_methods.mk b (UI_Q_methods.wdg_name x)
                (UI_Q_methods.cmbOvfl x) (UI_Q_methods.cmbQuant x))
             (<[UI_Q.q_dict b :=
                  dict_update (deref (UI_Q_methods.store w) (UI_Q.q_dict b))
                    (UI_Q_methods.mode_entries b)]> (UI_Q_methods.store w))
             (UI_Q_methods.events w ++
                match sender with
                | Some obj_name =>
                    [Emit [("wdg_name", py_str (UI_Q_methods.wdg_name x));
                           ("ui", obj_name)]]
                | None => []
                end)).
Proof.
  intros x b. unfold UI_Q_methods.ui2dict, mbind, M_bind, gets, modify.
  destruct sender; cbn -[deref dict_update UI_Q_methods.mode_entries insert];
    [done|]. by rewrite app_nil_r.
Qed.

(** X7.  [UI_Q.ui2dict] always returns.  It copies the two combo box
    selections to the attributes [ovfl] and [quant] and to the keys 'ovfl'
    and 'quant' of the widget's dictionary; every other key of that
    dictionary and every other dictionary are as before.  It emits one
    signal when it has a sender and nothing otherwise. *)
Theorem quant_ui2dict_frame (w : UI_Q_methods.world) (sender : option string) :
  let x := UI_Q_methods.self w in
  let l := UI_Q.q_dict (UI_Q_methods.base x) in
  ∃ w', UI_Q_methods.ui2dict sender w = Done tt w' ∧
        UI_Q.q_dict (UI_Q_methods.base (UI_Q_methods.self w')) = l ∧
        UI_Q.ovfl (UI_Q_methods.base (UI_Q_methods.self w'))
          = UI_Q_methods.cmbOvfl x ∧
        UI_Q.quant (UI_Q_methods.base (UI_Q_methods.self w'))
          = UI_Q_methods.cmbQuant x ∧
        deref (UI_Q_methods.store w') l !! "ovfl"
          = Some (PStr (UI_Q_methods.cmbOvfl x)) ∧
        deref (UI_Q_methods.store w') l !! "quant"
          = Some (PStr (UI_Q_methods.cmbQuant x)) ∧
        (∀ k, k ≠ "ovfl" → k ≠ "quant" →
              deref (UI_Q_methods.store w') l !! k
                = deref (UI_Q_methods.store w) l !! k) ∧
        (∀ l', l' ≠ l →
               UI_Q_methods.store w' !! l' = UI_Q_methods.store w !! l') ∧
        UI_Q_methods.events w' =
          UI_Q_methods.events w ++
            match sender with
            | Some obj_name =>
                [Emit [("wdg_name", py_str (UI_Q_methods.wdg_name x));
                       ("ui", obj_name)]]
            | None => []
            end.
Proof.
  intros x l. eexists. split; [apply quant_ui2dict_run|].
  cbn [UI_Q_methods.self UI_Q_methods.store UI_Q_methods.events
       UI_Q_methods.base UI_Q.q_dict UI_Q.ovfl UI_Q.quant].
  fold x. fold l. split_and!; try done.
  - rewrite deref_insert, decide_True by done.
    unfold dict_update, UI_Q_methods.mode_entries. cbn [UI_Q.ovfl UI_Q.quant].
    by rewrite lookup_union, lookup_insert_eq, union_Some_l.
  - rewrite deref_insert, decide_True by done.
    unfold dict_update, UI_Q_methods.mode_entries. cbn [UI_Q.ovfl UI_Q.quant].
    rewrite lookup_union, lookup_insert_ne, lookup_singleton_eq by done.
    by rewrite union_Some_l.
  - intros k H1 H2. rewrite deref_insert, decide_True by done.
    unfold dict_update, UI_Q_methods.mode_entries.
    rewrite lookup_union, lookup_insert_ne, lookup_singleton_ne by done.
    by destruct (deref _ _ !! k).
  - intros l' Hl'. by rewrite lookup_insert_ne.
Qed.

(** X8.  The accumulator's word-format widget and its quantization widget
    are constructed over the same dictionary.  Their [ui2dict]s do not
    disturb each other: run in either order on one dictionary they leave the
    same store, in which 'WI', 'WF', 'W' are as [UI_W.ui2dict] alone writes
    them and 'ovfl', 'quant' as [UI_Q.ui2dict] alone writes them. *)
Theorem accu_widgets_share (xw : UI_W.t) (xq : UI_Q_methods.t) (h : heap)
    (l : loc) (sender_w sarg sender_q : option string) (ev_w ev_q : list event) :
  UI_W.q_dict xw = Some l →
  UI_Q.q_dict (UI_Q_methods.base xq) = l →
  let after_w :=
    UI_W.store (final (UI_W.ui2dict sender_w sarg (UI_W.World xw h ev_w))) in
  let after_q :=
    UI_Q_methods.store
      (final (UI_Q_methods.ui2dict sender_q (UI_Q_methods.World xq h ev_q))) in
  let w_then_q :=
    UI_Q_methods.store
      (final (UI_Q_methods.ui2dict sender_q
                (UI_Q_methods.World xq after_w ev_q))) in
  let q_then_w :=
    UI_W.store
      (final (UI_W.ui2dict sender_w sarg (UI_W.World xw after_q ev_w))) in
  w_then_q = q_then_w ∧
  (∀ k, k = "WI" ∨ k = "WF" ∨ k = "W" →
        deref w_then_q l !! k = deref after_w l !! k) ∧
  (∀ k, k = "ovfl" ∨ k = "quant" →
        deref w_then_q l !! k = deref after_q l !! k).
Proof.
  intros Hw Hq after_w after_q w_then_q q_then_w.
  subst after_w after_q w_then_q q_then_w.
  destruct (ui2dict_run (UI_W.World xw h ev_w) sender_w sarg l Hw)
    as [evs1 ->].
  rewrite !quant_ui2dict_run.
  cbn [final UI_W.store UI_Q_methods.store UI_W.self UI_Q_methods.self
       UI_W.events UI_Q_methods.events UI_Q.q_dict].
  match goal with
  | |- context [UI_W.ui2dict _ _ (UI_W.World xw ?h' _)] =>
      destruct (ui2dict_run (UI_W.World xw h' ev_w) sender_w sarg l Hw)
        as [evs2 ->]
  end.
  cbn [final UI_W.store UI_W.self UI_W.events].
  rewrite Hq, !deref_insert, !decide_True by done.
  set (W := UI_W.word_entries _).
  set (Q := UI_Q_methods.mode_entries _).
  assert (Hdisj : ∀ k, is_Some (W !! k) → is_Some (Q !! k) → False).
  { intros k HW HQ. apply word_entries_keys in HW.
    apply mode_entries_keys in HQ.
    destruct HW as [-> | [-> | ->]], HQ as [? | ?]; done. }
  split_and!.
  - rewrite !insert_insert_eq. f_equal. apply map_eq. intros k.
    unfold dict_update. rewrite !lookup_union.
    destruct (W !! k) eqn:HW, (Q !! k) eqn:HQ; try done.
    + exfalso. apply (Hdisj k); by eexists.
    + by destruct (deref h l !! k).
    + by destruct (deref h l !! k).
  - intros k Hk. apply word_entries_keys with (x := UI_W.set_W (PInt 0) xw) in Hk.
    unfold dict_update. rewrite !lookup_union.
    destruct (Q !! k) eqn:HQ; [|by destruct (W !! k), (deref h l !! k)].
    exfalso. apply (Hdisj k); [|by eexists].
    apply word_entries_keys. by apply word_entries_keys in Hk.
  - intros k Hk. apply mode_entries_keys with (x := UI_Q.mk l "" "") in Hk.
    unfold dict_update. rewrite !lookup_union.
    destruct (Q !! k) eqn:HQ; [by destruct (W !! k), (deref h l !! k)|].
    apply mode_entries_keys in Hk.
    apply (mode_entries_keys (UI_Q.mk l (UI_Q_methods.cmbOvfl xq)
                                (UI_Q_methods.cmbQuant xq))) in Hk.
    fold Q in Hk. rewrite HQ in Hk. by destruct Hk.
Qed.

Lemma accu_widgets_share_witness :
  let xw := UI_W.mk (Some 1%positive) (PStr "w_accu") (PInt 0) (PInt 0)
              (PInt 0) "4" "11" "man" in
  let xq := UI_Q_methods.mk (UI_Q.mk 1%positive "wrap" "floor")
              (PStr "q_accu") "sat" "round" in
  let h : heap := {[ 1%positive := {[ "WI" := PInt 0; "ovfl" := PStr "wrap" ]} ]} in
  let after_w :=
    UI_W.store (final (UI_W.ui2dict None None (UI_W.World xw h []))) in
  let after_q :=
    UI_Q_methods.store
      (final (UI_Q_methods.ui2dict None (UI_Q_methods.World xq h []))) in
  let w_then_q :=
    UI_Q_methods.store
      (final (UI_Q_methods.ui2dict None (UI_Q_methods.World xq after_w []))) in
  let q_then_w :=
    UI_W.store (final (UI_W.ui2dict None None (UI_W.World xw after_q []))) in
  w_then_q = q_then_w ∧
  (∀ k, k = "WI" ∨ k = "WF" ∨ k = "W" →
        deref w_then_q 1%positive !! k = deref after_w 1%positive !! k) ∧
  (∀ k, k = "ovfl" ∨ k = "quant" →
        deref w_then_q 1%positive !! k = deref after_q 1%positive !! k).
Proof.
  intros xw xq h.
  apply (accu_widgets_share xw xq h 1%positive None None None [] []);
    reflexivity.
Defined.

End quantization_widget.

(** ** Accumulator sizing: what it touches, and how it fails *)

Section accumulator_extras.
Import IIR_DF1_pyfixp_UI.

#[local] Instance accu_only_at_preorder l : PreOrder (accu_only_at l).
Proof.
  split.
  - intros s _. reflexivity.
  - intros s1 s2 s3 H12 H23 Hl. specialize (H12 Hl).
    etrans; [exact H12|]. apply H23.
    destruct H12 as (-> & _). exact Hl.
Qed.

Lemma preserves_weaken {S A} (R R' : S → S → Prop) (m : M S A) :
  (∀ s s', R s s' → R' s s') → preserves R m → preserves R' m.
Proof. intros HR Hm s. apply HR, Hm. Qed.

Lemma fxqc_dict_frame (R : t → t → Prop) `{!PreOrder R} name :
  preserves R (fxqc_dict name).
Proof.
  intros s. unfold fxqc_dict. destruct (fxqc s !! name); reflexivity.
Qed.

Lemma fxqc_get_frame (R : t → t → Prop) `{!PreOrder R} name key :
  preserves R (fxqc_get name key).
Proof.
  unfold fxqc_get.
  apply preserves_bind; [done | by apply fxqc_dict_frame | intros l].
  apply preserves_bind; [done | by apply preserves_gets | intros h].
  by apply preserves_lift.
Qed.

Lemma store_QA_accu (s : t) (l : loc) (d : qdict) :
  fxqc s !! "QA" = Some l → accu_only s (set_store (<[l := d]> (store s)) s).
Proof.
  intros Hl. split_and!; try done.
  intros l' Hl'. cbn [store set_store]. rewrite deref_insert.
  rewrite decide_False; [done|]. intros ->. by apply Hl'.
Qed.

Lemma fxqc_set_QA_frame key v : preserves accu_only (fxqc_set "QA" key v).
Proof.
  intros s. unfold fxqc_set, fxqc_dict, mbind, M_bind, modify.
  destruct (fxqc s !! "QA") as [l|] eqn:Hl; cbn [final]; [|reflexivity].
  by apply store_QA_accu.
Qed.

Lemma bind_QA_frame {A} (f : loc → M t A) :
  (∀ l, preserves (accu_only_at l) (f l)) →
  preserves accu_only (fxqc_dict "QA" ≫= f).
Proof.
  intros Hf s. unfold fxqc_dict, mbind, M_bind.
  destruct (fxqc s !! "QA") as [l|] eqn:Hl; cbn [final]; [|reflexivity].
  by apply (Hf l s).
Qed.

Lemma on_wdg_w_accu_frame {A} (m : M UI_W.world A) :
  preserves display_only m → preserves accu_only (on_wdg_w_accu m).
Proof.
  intros Hm s. unfold on_wdg_w_accu.
  specialize (Hm (UI_W.World (wdg_w_accu s) (store s) (log s))).
  destruct (m _) as [a w|e w]; cbn [final] in *;
    destruct Hm as (Hst & Hq & Hn & Hc & Hev); cbn in *;
    split_and!; try done; intros l _; by rewrite Hst.
Qed.

Lemma logger_error_frame e : preserves accu_only (logger_error e).
Proof.
  apply preserves_modify. intros s. split_and!; try done.
  by apply logs_only_snoc.
Qed.

Lemma bit_growth_frame (R : t → t → Prop) `{!PreOrder R} :
  preserves R bit_growth.
Proof.
  intros s. destruct (bit_growth_cases s) as [[e ->] | [(g & -> & _) | [-> _]]];
    reflexivity.
Qed.

Ltac accu_step :=
  first
    [ apply fxqc_get_frame; tc_solve
    | apply fxqc_set_QA_frame
    | apply fxqc_dict_frame; tc_solve
    | apply logger_error_frame
    | apply preserves_bind; [tc_solve | | intros ?]
    | apply preserves_ret; tc_solve
    | apply preserves_gets; tc_solve
    | apply preserves_lift; tc_solve
    | apply preserves_raise; tc_solve
    | match goal with
      | |- preserves _ (match ?x with _ => _ end) => destruct x
      | |- preserves _ (if ?x then _ else _) => destruct x
      end ].

Lemma derive_format_frame A_coeff : preserves accu_only (derive_format A_coeff).
Proof. unfold derive_format, qget_cmb_box_accu. repeat accu_step. Qed.

Lemma store_format_frame : preserves accu_only store_format.
Proof.
  unfold store_format.
  do 10 (apply preserves_bind; [tc_solve | solve [repeat accu_step] | intros ?]).
  apply bind_QA_frame. intros l.
  apply preserves_bind; [tc_solve | apply preserves_gets; tc_solve | intros lq].
  apply preserves_bind; [tc_solve | | intros _].
  { apply preserves_modify. intros s Hl. by apply store_QA_accu. }
  apply (preserves_weaken accu_only); [by intros s s' H _|].
  apply preserves_bind; [tc_solve | apply fxqc_dict_frame; tc_solve | intros qa].
  apply on_wdg_w_accu_frame. apply dict2ui_display.
Qed.

Lemma update_accu_settings_accu_only : preserves accu_only update_accu_settings.
Proof.
  unfold update_accu_settings.
  apply preserves_bind; [tc_solve | | intros [e|A_coeff]].
  - apply preserves_try. apply bit_growth_frame; tc_solve.
  - apply logger_error_frame.
  - apply preserves_bind; [tc_solve | apply derive_format_frame | intros _].
    apply store_format_frame.
Qed.

(** X9.  Whatever the state and however it ends, [update_accu_settings]
    changes nothing but the accumulator dictionary [fxqc['QA']], the numbers
    shown by the accumulator widget, and the log: the entries of [fxqc], the
    coefficients 'b', 'a' and 'ba', the other widgets, the accumulator
    widget's dictionary reference, name and combo box, and every dictionary
    other than [fxqc['QA']] are as before, and no signal is emitted. *)
Theorem update_accu_settings_frame (s : t) :
  let s' := final (update_accu_settings s) in
  fxqc s' = fxqc s ∧ fxqc_b s' = fxqc_b s ∧ fxqc_a s' = fxqc_a s ∧
  ba s' = ba s ∧
  wdg_w_coeffs_b s' = wdg_w_coeffs_b s ∧
  wdg_w_coeffs_a s' = wdg_w_coeffs_a s ∧
  wdg_q_accu s' = wdg_q_accu s ∧
  UI_W.q_dict (wdg_w_accu s') = UI_W.q_dict (wdg_w_accu s) ∧
  UI_W.wdg_name (wdg_w_accu s') = UI_W.wdg_name (wdg_w_accu s) ∧
  UI_W.cmbW (wdg_w_accu s') = UI_W.cmbW (wdg_w_accu s) ∧
  (∀ l, fxqc s !! "QA" ≠ Some l → deref (store s') l = deref (store s) l) ∧
  ∃ evs, log s' = log s ++ evs ∧ Forall (λ e, is_signal e = false) evs.
Proof. exact (update_accu_settings_accu_only s). Qed.

End accumulator_extras.

Section accumulator_failures.
Import IIR_DF1_pyfixp_UI.

Ltac acc_prim :=
  first
    [ reflexivity
    | eapply fxqc_get_Done; [eassumption |];
      cbn [store set_store];
      repeat (rewrite lookup_setitem_ne by done);
      first [eassumption | apply lookup_setitem_eq]
    | eapply fxqc_set_Done; eassumption
    | eapply fxqc_dict_Done; eassumption ].

Ltac acc_run := lazy beta iota; erewrite bind_Done; [| solve [acc_prim] ].

Lemma deref_setitem_eq (h : heap) l k v :
  deref (setitem h l k v) l = <[k := v]> (deref h l).
Proof. unfold setitem. by rewrite deref_insert, decide_True. Qed.

Lemma deref_setitem_ne (h : heap) l k v l' :
  l ≠ l' → deref (setitem h l k v) l' = deref h l'.
Proof. intros. unfold setitem. by rewrite deref_insert, decide_False. Qed.

(** X10.  Under 'full' the tap count is read from [fxqc['b']].  When that
    entry does not exist yet, the [KeyError] is caught like a failed
    logarithm: it is logged, the method returns, and nothing else has
    changed. *)
Theorem accu_full_without_b (s : t) :
  UI_W.cmbW (wdg_w_accu s) = "full" → fxqc_b s = None →
  update_accu_settings s =
  Done tt (set_log (log s ++ [LogException (KeyError "b")]) s).
Proof.
  intros Hm Hb. apply update_accu_settings_failed.
  unfold bit_growth.
  erewrite bind_Done by reflexivity. lazy beta.
  rewrite Hm, bool_decide_eq_true_2 by done.
  erewrite bind_Raised; [reflexivity|]. by rewrite Hb.
Qed.

Lemma accu_full_without_b_witness :
  update_accu_settings
    (demo_over (demo_heap demo_qca) demo_fxqc None 1%positive "full") =
  Done tt (set_log [LogException (KeyError "b")]
             (demo_over (demo_heap demo_qca) demo_fxqc None 1%positive "full")).
Proof.
  apply (accu_full_without_b
           (demo_over (demo_heap demo_qca) demo_fxqc None 1%positive "full"));
    reflexivity.
Defined.

(** X11.  The [try] of [update_accu_settings] covers the bit growth only.
    When the growth is found but the input format [fxqc['QI']] has no 'WI',
    the [KeyError] leaves the method, and it does so after
    [fxqc['QA']['WF']] has been overwritten: the accumulator dictionary is
    left with the new 'WF' next to the old 'WI', 'W' and 'Q'. *)
Theorem accu_sizing_not_atomic (s : t) (g : Z) (lqa : loc)
    (wf_i wf_c wf : pyval) :
  bit_growth s = Done (Some g) s →
  fxqc s !! "QA" = Some lqa →
  QI s !! "WF" = Some wf_i → QCB s !! "WF" = Some wf_c →
  py_add wf_i wf_c = inr wf →
  QI s !! "WI" = None →
  update_accu_settings s =
  Raised (KeyError "WI") (set_store (setitem (store s) lqa "WF" wf) s).
Proof.
  intros Hg Hqa HiF HcF Hadd HiI.
  assert (Hm : UI_W.cmbW (wdg_w_accu s) = "full"
               ∨ UI_W.cmbW (wdg_w_accu s) = "auto").
  { destruct (bit_growth_cases s) as [[e He] | [(g' & _ & Hm) | [Hn _]]];
      [congruence | done | congruence]. }
  apply sub_lookup in HiF as (lqi & Hqi & HiF).
  apply sub_lookup in HcF as (lqcb & Hqcb & HcF).
  unfold QI, sub in HiI. rewrite Hqi in HiI.
  unfold update_accu_settings.
  erewrite bind_Done; [| unfold try; rewrite Hg; reflexivity].
  lazy beta iota.
  erewrite bind_Raised; [reflexivity|].
  unfold derive_format. acc_run.
  replace (bool_decide _ || bool_decide _) with true
    by (destruct Hm as [-> | ->]; done).
  do 2 acc_run. lazy beta.
  erewrite bind_Done by (unfold lift; rewrite Hadd; reflexivity).
  acc_run. lazy beta.
  erewrite bind_Raised; [reflexivity|].
  unfold fxqc_get.
  erewrite bind_Done by (apply fxqc_dict_Done; exact Hqi).
  unfold mbind, M_bind, gets, lift, getitem. cbn [store set_store].
  by rewrite lookup_setitem_ne, HiI by done.
Qed.

Lemma accu_sizing_not_atomic_witness :
  update_accu_settings
    (demo_over heap_no_input_WI demo_fxqc (Some [1; 1; 1]%Q) 1%positive "full") =
  Raised (KeyError "WI")
    (set_store (setitem heap_no_input_WI 1%positive "WF" (PInt 28))
       (demo_over heap_no_input_WI demo_fxqc (Some [1; 1; 1]%Q) 1%positive
          "full")).
Proof.
  apply (accu_sizing_not_atomic
           (demo_over heap_no_input_WI demo_fxqc (Some [1; 1; 1]%Q)
              1%positive "full")
           2 1%positive (PInt 15) (PInt 13) (PInt 28));
    reflexivity.
Defined.

(** X12.  The last step before the widget is refreshed is
    [QA.update(self.wdg_q_accu.q_dict)].  When the quantization widget works
    on a dictionary other than [fxqc['QA']], every entry of that dictionary
    replaces the one just computed: under manual sizing the accumulator
    dictionary ends as its old content with the recomputed 'W' and 'Q',
    overlaid with the quantization widget's dictionary.  A 'W' held there
    wins over [WI + WF + 1]. *)
Theorem quantizer_dict_wins (s : t) (lqa : loc) (wi wf : Z) :
  UI_W.cmbW (wdg_w_accu s) ≠ "full" → UI_W.cmbW (wdg_w_accu s) ≠ "auto" →
  fxqc s !! "QA" = Some lqa →
  UI_Q.q_dict (wdg_q_accu s) ≠ lqa →
  deref (store s) lqa !! "WI" = Some (PInt wi) →
  deref (store s) lqa !! "WF" = Some (PInt wf) →
  ∃ s', update_accu_settings s = Done tt s' ∧
        QA s' =
          dict_update
            (<["Q" := PStr ((pretty wi +:+ ".") +:+ pretty wf)]>
               (<["W" := PInt (wi + wf + 1)]> (QA s)))
            (deref (store s) (UI_Q.q_dict (wdg_q_accu s))) ∧
        ∀ k v, deref (store s) (UI_Q.q_dict (wdg_q_accu s)) !! k = Some v →
               QA s' !! k = Some v.
Proof.
  intros H1 H2 Hqa Hne Hi Hf.
  assert (Hg : bit_growth s = Done None s).
  { destruct (bit_growth_cases s) as [[e He] | [(g' & _ & Hm) | [Hn _]]];
      [|by destruct Hm|done].
    exfalso. revert He. unfold bit_growth.
    erewrite bind_Done by reflexivity. lazy beta.
    rewrite bool_decide_eq_false_2 by done.
    erewrite bind_Done by reflexivity. lazy beta.
    by rewrite bool_decide_eq_false_2 by done. }
  set (lq := UI_Q.q_dict (wdg_q_accu s)) in *.
  set (mid := <["Q" := PStr ((pretty wi +:+ ".") +:+ pretty wf)]>
                (<["W" := PInt (wi + wf + 1)]> (deref (store s) lqa))).
  assert (∃ vi, dict_update mid (deref (store s) lq) !! "WI" = Some vi)
    as [vi Hvi].
  { unfold dict_update, mid. rewrite lookup_union.
    rewrite !lookup_insert_ne, Hi by done.
    destruct (deref (store s) lq !! "WI"); eauto. }
  assert (∃ vf, dict_update mid (deref (store s) lq) !! "WF" = Some vf)
    as [vf Hvf].
  { unfold dict_update, mid. rewrite lookup_union.
    rewrite !lookup_insert_ne, Hf by done.
    destruct (deref (store s) lq !! "WF"); eauto. }
  eexists. split; [|split].
  - unfold update_accu_settings.
    erewrite bind_Done; [| unfold try; rewrite Hg; reflexivity].
    lazy beta iota.
    erewrite bind_Done by by apply derive_format_skip.
    unfold store_format. do 12 acc_run.
    erewrite bind_Done; [|reflexivity]. lazy beta.
    cbn [wdg_q_accu set_store store]. fold lq.
    acc_run. lazy beta. unfold on_wdg_w_accu.
    cbn [wdg_w_accu set_store store log].
    erewrite (dict2ui_run _ lqa vi vf); cbn [UI_W.store UI_W.self UI_W.events].
    + reflexivity.
    + rewrite deref_insert, decide_True by done.
      rewrite !deref_setitem_eq, !deref_setitem_ne by done. exact Hvi.
    + rewrite deref_insert, decide_True by done.
      rewrite !deref_setitem_eq, !deref_setitem_ne by done. exact Hvf.
  - unfold QA, sub.
    cbn [fxqc store log wdg_w_accu set_wdg_w_accu set_store set_log].
    rewrite Hqa, deref_insert, decide_True by done.
    by rewrite !deref_setitem_eq, !deref_setitem_ne by done.
  - intros k v Hk. unfold QA, sub.
    cbn [fxqc store log wdg_w_accu set_wdg_w_accu set_store set_log].
    rewrite Hqa, deref_insert, decide_True by done.
    rewrite !deref_setitem_eq, !deref_setitem_ne by done.
    unfold dict_update. by rewrite lookup_union, Hk, union_Some_l.
Qed.

Lemma quantizer_dict_wins_witness :
  ∃ s', update_accu_settings
          (demo_over heap_split demo_fxqc (Some [1; 1; 1]%Q) 5%positive "man")
        = Done tt s' ∧
        QA s' !! "W" = Some (PInt 99) ∧
        QA s' !! "WI" = Some (PInt 0) ∧ QA s' !! "WF" = Some (PInt 30).
Proof.
  destruct (quantizer_dict_wins
              (demo_over heap_split demo_fxqc (Some [1; 1; 1]%Q) 5%positive "man")
              1%positive 0 30)
    as (s' & Hrun & HQA & Hwin); try done.
  exists s'. split; [exact Hrun|]. split.
  - apply Hwin. reflexivity.
  - rewrite HQA. split; reflexivity.
Defined.

End accumulator_failures.

(** ** Comparing the two sizing policies *)

Section growth.
Import IIR_DF1_pyfixp_UI.

Lemma is_ceil_log2_mono x y k j :
  (x <= y)%Q → is_ceil_log2 x k → is_ceil_log2 y j → k <= j.
Proof.
  intros Hxy [Hk _] [_ Hj].
  destruct (Z_le_gt_dec k j) as [|Hgt]; [done|]. exfalso.
  assert (2 ^ j <= 2 ^ (k - 1))%Q as Hp
    by (apply Qpower_le_compat_l; [lia | done]).
  apply (Qlt_irrefl x).
  eapply Qle_lt_trans; [exact Hxy|]. eapply Qle_lt_trans; [exact Hj|].
  eapply Qle_lt_trans; [exact Hp|done].
Qed.

Lemma sum_abs_le_len taps :
  Forall (λ x, (Qabs x <= 1)%Q) taps → (sum_abs taps <= len taps)%Q.
Proof.
  unfold sum_abs, len. induction 1 as [|x taps Hx _ IH]; [done|].
  cbn [fmap list_fmap foldr length].
  rewrite Nat2Z.inj_succ, <- Z.add_1_l, inject_Z_plus.
  by apply Qplus_le_compat.
Qed.

Lemma sum_abs_pos_nonempty taps : (0 < sum_abs taps)%Q → taps ≠ [].
Proof. by intros H ->. Qed.

Lemma len_pos taps : taps ≠ [] → (0 < len taps)%Q.
Proof.
  intros H. unfold len, Qlt. cbn. destruct taps; [done|]. cbn [length]. lia.
Qed.

(** X13.  'auto' sizes the accumulator from the sum of the magnitudes of
    [ba[0]], 'full' from the number of entries of [fxqc['b']].  For
    coefficient lists of equal length, when no magnitude exceeds 1 (and not
    all are zero) both sizings succeed and 'auto' never takes more growth
    bits than 'full'. *)
Theorem auto_growth_at_most_full (s_full s_auto : t) (qb : list Q) :
  UI_W.cmbW (wdg_w_accu s_full) = "full" → fxqc_b s_full = Some qb →
  UI_W.cmbW (wdg_w_accu s_auto) = "auto" →
  length qb = length (ba s_auto).1 →
  Forall (λ x, (Qabs x <= 1)%Q) (ba s_auto).1 →
  (0 < sum_abs (ba s_auto).1)%Q →
  ∃ g_full g_auto,
    bit_growth s_full = Done (Some g_full) s_full ∧
    bit_growth s_auto = Done (Some g_auto) s_auto ∧
    g_auto <= g_full.
Proof.
  intros Hf Hb Ha Hlen Hmag Hpos.
  pose proof (sum_abs_pos_nonempty _ Hpos) as Hne.
  assert (Hqb : qb ≠ []) by (intros ->; by destruct (ba s_auto).1).
  destruct (ceil_log2_spec _ (len_pos qb Hqb)) as (gf & Hgf & Hsf).
  destruct (ceil_log2_spec _ Hpos) as (ga & Hga & Hsa).
  exists gf, ga. split_and!.
  - by rewrite (bit_growth_full s_full qb Hf Hb), Hgf.
  - by rewrite (bit_growth_auto s_auto Ha), Hga.
  - eapply is_ceil_log2_mono; [|exact Hsa|exact Hsf].
    unfold len. rewrite Hlen. by apply sum_abs_le_len.
Qed.

Lemma auto_growth_at_most_full_witness :
  ∃ g_full g_auto,
    bit_growth (demo "full" [1; 1; 1]%Q [1]%Q demo_qca)
      = Done (Some g_full) (demo "full" [1; 1; 1]%Q [1]%Q demo_qca) ∧
    bit_growth (demo "auto" [1 # 4; -1 # 2; 1 # 4]%Q [1]%Q demo_qca)
      = Done (Some g_auto)
          (demo "auto" [1 # 4; -1 # 2; 1 # 4]%Q [1]%Q demo_qca) ∧
    g_auto <= g_full.
Proof.
  apply (auto_growth_at_most_full
           (demo "full" [1; 1; 1]%Q [1]%Q demo_qca)
           (demo "auto" [1 # 4; -1 # 2; 1 # 4]%Q [1]%Q demo_qca)
           [1; 1; 1]%Q); try reflexivity.
  - repeat constructor; by vm_compute.
Defined.



End growth.

(** ** The filter widget: [ui2dict] and the signals *)

Section filter_widget.
Import IIR_DF1_pyfixp_UI IIR_methods.
Context `{FixLib}.

Lemma set_store_id (s : t) : set_store (store s) s = s.
Proof. by destruct s. Qed.

Lemma widget_q_dict_Done get s l :
  UI_W.q_dict (get s) = Some l → widget_q_dict get s = Done l s.
Proof. unfold widget_q_dict. by intros ->. Qed.

Lemma store_settings_wired name get s :
  wired_to name (get s) s → store_settings name get s = Done tt s.
Proof.
  intros (l & Hl & Hq & [d Hd]). unfold store_settings.
  erewrite bind_Done by reflexivity. lazy beta. rewrite Hl.
  erewrite bind_Done by by apply widget_q_dict_Done.
  unfold modify. rewrite dict_update_self.
  unfold deref. rewrite Hd. cbn [default from_option].
  by rewrite insert_id, set_store_id.
Qed.

Lemma call_quant_coeffs_run (q_dict : qdict) (coeffs : list Q) (s : t) :
  call_quant_coeffs q_dict coeffs s =
  match fixp (set_frmt "dec" (Fixed_new q_dict)) (Some coeffs) with
  | inr y => Done y s
  | inl e => Raised e s
  end.
Proof.
  unfold call_quant_coeffs, quant_coeffs, mbind, M_bind, lift. cbn.
  destruct (fixp _ _); cbn; by destruct s.
Qed.

Lemma ui2dict_wired_run (s : t) :
  wired s →
  ui2dict s =
  match quantized "QCB" (ba s).1 s with
  | inl e => Raised e s
  | inr yb =>
      match quantized "QCA" (ba s).2 s with
      | inl e => Raised e (set_fxqc_b yb s)
      | inr ya => Done tt (set_fxqc_a ya (set_fxqc_b yb s))
      end
  end.
Proof.
  intros (HA & HB & HC). unfold ui2dict.
  erewrite bind_Done by by apply store_settings_wired. lazy beta.
  erewrite bind_Done by by apply store_settings_wired. lazy beta.
  erewrite bind_Done by by apply store_settings_wired. lazy beta.
  destruct HB as (lb & Hlb & Hqb & _). destruct HC as (la & Hla & Hqa & _).
  erewrite bind_Done by by apply widget_q_dict_Done. lazy beta.
  erewrite bind_Done by reflexivity. lazy beta. cbn [id].
  unfold quantized, sub. rewrite Hlb, Hla.
  unfold mbind at 1, M_bind at 1. rewrite call_quant_coeffs_run.
  destruct (fixp _ (Some (ba s).1)) as [e|yb]; [done|].
  erewrite bind_Done by reflexivity. lazy beta.
  erewrite bind_Done by by apply widget_q_dict_Done. lazy beta.
  erewrite bind_Done by reflexivity. lazy beta. cbn [id].
  unfold mbind at 1, M_bind at 1. rewrite call_quant_coeffs_run.
  cbn [store ba set_fxqc_b].
  destruct (fixp _ (Some (ba s).2)) as [e|ya]; done.
Qed.

(** X15.  Once the three word-format widgets work on the dictionaries of
    [fb.fil[0]['fxqc']] themselves, [ui2dict] copies nothing: each
    [fxqc[name].update(widget.q_dict)] updates a dictionary with itself.  The
    call then comes down to quantizing [ba[0]] under 'QCB' and [ba[1]] under
    'QCA' and storing the results as 'b' and 'a'; when the second
    quantization raises, 'b' has already been replaced. *)
Theorem ui2dict_wired (s : t) :
  wired s →
  ui2dict s =
  match quantized "QCB" (ba s).1 s with
  | inl e => Raised e s
  | inr yb =>
      match quantized "QCA" (ba s).2 s with
      | inl e => Raised e (set_fxqc_b yb s)
      | inr ya => Done tt (set_fxqc_a ya (set_fxqc_b yb s))
      end
  end.
Proof. exact (ui2dict_wired_run s). Qed.

#[local] Instance coeffs_only_preorder : PreOrder coeffs_only.
Proof.
  split.
  - intros s. by repeat split.
  - intros s1 s2 s3 (?&?&?&?&?&?&?) (?&?&?&?&?&?&?).
    split_and!; congruence.
Qed.

Lemma wired_coeffs_only s s' : coeffs_only s s' → wired s → wired s'.
Proof.
  intros (Hst & Hfx & _ & Hb & Ha & Hacc & _). unfold wired, wired_to.
  by rewrite Hst, Hfx, Hb, Ha, Hacc.
Qed.

#[local] Instance coeffs_only_wired_preorder : PreOrder coeffs_only_wired.
Proof.
  split.
  - intros s _. reflexivity.
  - intros s1 s2 s3 H12 H23 Hw. specialize (H12 Hw).
    etrans; [exact H12|]. apply H23. by eapply wired_coeffs_only.
Qed.

Lemma tell_coeffs_only e : preserves coeffs_only_wired (tell e).
Proof. apply preserves_modify. intros s _. by repeat split. Qed.

Lemma ui2dict_coeffs_only : preserves coeffs_only_wired ui2dict.
Proof.
  intros s Hw. rewrite (ui2dict_wired_run s Hw).
  destruct (quantized "QCB" _ _); [by repeat split|].
  destruct (quantized "QCA" _ _); by repeat split.
Qed.

Lemma sig_get_frame (R : t → t → Prop) `{!PreOrder R} d key :
  preserves R (sig_get d key).
Proof.
  unfold sig_get. destruct (d !! key);
    [by apply preserves_ret | by apply preserves_raise].
Qed.

Ltac sig_step :=
  first
    [ apply tell_coeffs_only
    | apply ui2dict_coeffs_only
    | apply sig_get_frame; tc_solve
    | apply preserves_bind; [tc_solve | | intros ?]
    | apply preserves_ret; tc_solve
    | apply preserves_gets; tc_solve
    | match goal with
      | |- preserves _ (if ?x then _ else _) => destruct x
      end ].

Lemma process_sig_rx_coeffs_only d : preserves coeffs_only_wired (process_sig_rx d).
Proof.
  unfold process_sig_rx, dispatch, qget_cmb_box_accu. repeat sig_step.
Qed.

(** X16.  With the widgets wired to the dictionaries of
    [fb.fil[0]['fxqc']], handling a signal never changes a dictionary, an
    entry of [fxqc] that is a dictionary, the coefficients [ba] or a widget,
    whatever the signal and however the handling ends.  In particular
    [process_sig_rx] does not resize the accumulator: only 'b', 'a' and the
    event stream can differ afterwards. *)
Theorem process_sig_rx_frame (d : gmap string string) (s : t) :
  wired s →
  let s' := final (process_sig_rx d s) in
  store s' = store s ∧ fxqc s' = fxqc s ∧ ba s' = ba s ∧
  wdg_w_coeffs_b s' = wdg_w_coeffs_b s ∧
  wdg_w_coeffs_a s' = wdg_w_coeffs_a s ∧
  wdg_w_accu s' = wdg_w_accu s ∧
  wdg_q_accu s' = wdg_q_accu s.
Proof. intros Hw. exact (process_sig_rx_coeffs_only d s Hw). Qed.

Lemma tell_run e s : tell e s = Done tt (set_log (log s ++ [e]) s).
Proof. reflexivity. Qed.

Lemma sig_get_Done d key v (s : t) :
  d !! key = Some v → sig_get d key s = Done v s.
Proof. unfold sig_get. by intros ->. Qed.

Lemma sig_get_Raised d key (s : t) :
  d !! key = None → sig_get d key s = Raised (KeyError key) s.
Proof. unfold sig_get. by intros ->. Qed.

(** X17.  A signal of the accumulator's word-format widget that comes from
    its combo box being switched to 'man' is dropped: [process_sig_rx]
    logs its arrival and returns, touching nothing and emitting nothing. *)
Theorem switch_to_manual_ignored (d : gmap string string) (s : t) (ui : string) :
  d !! "wdg_name" = Some "w_accu" → d !! "ui" = Some ui →
  ui ≠ "WF" → ui ≠ "WI" →
  UI_W.cmbW (wdg_w_accu s) = "man" →
  process_sig_rx d s = Done tt (set_log (log s ++ [LogWarning "sig_rx"]) s).
Proof.
  intros Hn Hui H1 H2 Hm. unfold process_sig_rx.
  erewrite bind_Done by apply tell_run. lazy beta.
  rewrite bool_decide_eq_true_2 by (by rewrite Hui).
  erewrite bind_Done; cycle 1.
  { unfold dispatch.
    erewrite bind_Done by by apply sig_get_Done. lazy beta.
    rewrite !(bool_decide_eq_false_2 ("w_accu" = _)) by done. cbn [orb].
    erewrite bind_Done by by apply sig_get_Done. lazy beta.
    rewrite (bool_decide_eq_true_2 ("w_accu" = "w_accu")) by done.
    erewrite bind_Done by reflexivity. lazy beta.
    erewrite bind_Done by by apply sig_get_Done. lazy beta.
    cbn [set_log wdg_w_accu]. rewrite Hm.
    rewrite !(bool_decide_eq_false_2 ("man" = _)) by done.
    rewrite (bool_decide_eq_false_2 (ui = "WF")) by done.
    rewrite (bool_decide_eq_false_2 (ui = "WI")) by done.
    cbn [orb]. rewrite bool_decide_eq_true_2 by done. reflexivity. }
  reflexivity.
Qed.

(** X18.  A signal with the key 'ui' from a widget whose name is none of
    'w_coeff_b', 'w_coeff_a', 'w_accu', 'q_accu' is reported as an error and
    otherwise ignored: nothing is copied, quantized or emitted. *)
Theorem signal_unknown_widget (d : gmap string string) (s : t) (ui name : string) :
  d !! "ui" = Some ui → d !! "wdg_name" = Some name →
  name ≠ "w_coeff_b" → name ≠ "w_coeff_a" → name ≠ "w_accu" → name ≠ "q_accu" →
  process_sig_rx d s =
  Done tt (set_log (log s ++ [LogWarning "sig_rx";
                              LogError ("Unknown widget name '" +:+ name +:+ "'")])
             s).
Proof.
  intros Hui Hn H1 H2 H3 H4. unfold process_sig_rx.
  erewrite bind_Done by apply tell_run. lazy beta.
  rewrite bool_decide_eq_true_2 by (by rewrite Hui).
  erewrite bind_Done; cycle 1.
  { unfold dispatch.
    erewrite bind_Done by by apply sig_get_Done. lazy beta.
    rewrite !(bool_decide_eq_false_2 (name = _)) by done. cbn [orb].
    erewrite bind_Done by by apply sig_get_Done. lazy beta.
    rewrite !(bool_decide_eq_false_2 (name = _)) by done.
    erewrite bind_Done by by apply sig_get_Done. lazy beta.
    rewrite !(bool_decide_eq_false_2 (name = _)) by done.
    erewrite bind_Done by by apply sig_get_Done. lazy beta.
    erewrite bind_Done by apply tell_run. reflexivity. }
  cbn. by rewrite <- app_assoc.
Qed.

(** X19.  A signal without the key 'ui' is reported as an error and
    ignored.  The report itself reads [dict_sig['wdg_name']]: a signal that
    has neither key, such as ['fx_sim': 'specs_changed'], makes
    [process_sig_rx] raise [KeyError], after the arrival has been logged. *)
Theorem signal_without_ui (d : gmap string string) (s : t) :
  d !! "ui" = None →
  process_sig_rx d s =
  match d !! "wdg_name" with
  | Some name =>
      Done tt (set_log (log s ++ [LogWarning "sig_rx";
                                  LogError ("Unknown key '" +:+ name +:+
                                            "' (should be 'ui')")]) s)
  | None =>
      Raised (KeyError "wdg_name") (set_log (log s ++ [LogWarning "sig_rx"]) s)
  end.
Proof.
  intros Hui. unfold process_sig_rx.
  erewrite bind_Done by apply tell_run. lazy beta.
  rewrite bool_decide_eq_false_2 by (rewrite Hui; by intros [? ?]).
  destruct (d !! "wdg_name") as [name|] eqn:Hn.
  - erewrite bind_Done by by apply sig_get_Done.
    rewrite tell_run. cbn. by rewrite <- app_assoc.
  - by erewrite bind_Raised by by apply sig_get_Raised.
Qed.

End filter_widget.

Section filter_widget_witnesses.
Import IIR_DF1_pyfixp_UI IIR_methods.

Lemma switch_to_manual_ignored_witness :
  process_sig_rx (H := demo_lib)
    {[ "wdg_name" := "w_accu"; "ui" := "cmbW" ]}
    (demo "man" [1; 1; 1]%Q [1]%Q demo_qca) =
  Done tt (set_log [LogWarning "sig_rx"] (demo "man" [1; 1; 1]%Q [1]%Q demo_qca)).
Proof.
  apply (switch_to_manual_ignored (H := demo_lib)
           {[ "wdg_name" := "w_accu"; "ui" := "cmbW" ]}
           (demo "man" [1; 1; 1]%Q [1]%Q demo_qca) "cmbW"); done.
Defined.

Lemma signal_unknown_widget_witness :
  process_sig_rx (H := demo_lib)
    {[ "wdg_name" := "w_input"; "ui" := "WF" ]}
    (demo "man" [1; 1; 1]%Q [1]%Q demo_qca) =
  Done tt (set_log [LogWarning "sig_rx";
                    LogError "Unknown widget name 'w_input'"]
             (demo "man" [1; 1; 1]%Q [1]%Q demo_qca)).
Proof.
  apply (signal_unknown_widget (H := demo_lib)
           {[ "wdg_name" := "w_input"; "ui" := "WF" ]}
           (demo "man" [1; 1; 1]%Q [1]%Q demo_qca) "WF" "w_input"); done.
Defined.

Lemma signal_without_ui_witness :
  process_sig_rx (H := demo_lib) {[ "fx_sim" := "specs_changed" ]}
    (demo "man" [1; 1; 1]%Q [1]%Q demo_qca) =
  Raised (KeyError "wdg_name")
    (set_log [LogWarning "sig_rx"] (demo "man" [1; 1; 1]%Q [1]%Q demo_qca)).
Proof.
  etrans;
    [apply (signal_without_ui (H := demo_lib) {[ "fx_sim" := "specs_changed" ]}
              (demo "man" [1; 1; 1]%Q [1]%Q demo_qca)); reflexivity|].
  reflexivity.
Defined.

Lemma ui2dict_wired_witness :
  ui2dict (H := demo_lib) (demo "man" [1; 1; 1]%Q [1]%Q demo_qca) =
  match quantized (H := demo_lib) "QCB" [1; 1; 1]%Q
          (demo "man" [1; 1; 1]%Q [1]%Q demo_qca) with
  | inl e => Raised e (demo "man" [1; 1; 1]%Q [1]%Q demo_qca)
  | inr yb =>
      match quantized (H := demo_lib) "QCA" [1]%Q
              (demo "man" [1; 1; 1]%Q [1]%Q demo_qca) with
      | inl e => Raised e (set_fxqc_b yb (demo "man" [1; 1; 1]%Q [1]%Q demo_qca))
      | inr ya =>
          Done tt (set_fxqc_a ya
                     (set_fxqc_b yb (demo "man" [1; 1; 1]%Q [1]%Q demo_qca)))
      end
  end.
Proof.
  apply (ui2dict_wired (H := demo_lib) (demo "man" [1; 1; 1]%Q [1]%Q demo_qca)).
  split_and!; eexists; (split_and!; [reflexivity | reflexivity |]);
    eexists; reflexivity.
Defined.

Lemma process_sig_rx_frame_witness :
  let s := demo "auto" [1; 1; 1]%Q [1]%Q demo_qca in
  let s' := final (process_sig_rx (H := demo_lib)
                     {[ "wdg_name" := "w_accu"; "ui" := "cmbW" ]} s) in
  store s' = store s ∧ fxqc s' = fxqc s ∧ ba s' = ba s ∧
  wdg_w_coeffs_b s' = wdg_w_coeffs_b s ∧
  wdg_w_coeffs_a s' = wdg_w_coeffs_a s ∧
  wdg_w_accu s' = wdg_w_accu s ∧
  wdg_q_accu s' = wdg_q_accu s.
Proof.
  intros s.
  apply (process_sig_rx_frame (H := demo_lib)
           {[ "wdg_name" := "w_accu"; "ui" := "cmbW" ]} s).
  split_and!; eexists; (split_and!; [reflexivity | reflexivity |]);
    eexists; reflexivity.
Defined.

End filter_widget_witnesses.

(** ** The filter widget: a coefficient edit, and [dict2ui] *)

Section coefficient_edit.
Import IIR_DF1_pyfixp_UI IIR_methods.
Context `{FixLib}.

Lemma ui2dict_settled (s0 s : t) (yb ya : list Q) :
  wired s0 →
  quantized "QCB" (ba s0).1 s0 = inr yb →
  quantized "QCA" (ba s0).2 s0 = inr ya →
  coeffs_only s0 s →
  ui2dict s = Done tt (set_fxqc_a ya (set_fxqc_b yb s)).
Proof.
  intros Hw Hb Ha Hco.
  rewrite (ui2dict_wired_run s (wired_coeffs_only _ _ Hco Hw)).
  destruct Hco as (Hst & Hfx & Hba & _).
  assert (Hq : ∀ name c, quantized name c s = quantized name c s0).
  { intros name c. unfold quantized, sub. by rewrite Hst, Hfx. }
  by rewrite !Hq, Hba, Hb, Ha.
Qed.

(** X20.  Editing a coefficient word length sends the widget's signal to
    [update_q_coeff], which runs [ui2dict], then [process_sig_rx], which
    runs it twice more.  With the widgets wired and both quantizations
    succeeding, the three runs amount to one: 'b' and 'a' hold the
    coefficients quantized under 'QCB' and 'QCA', nothing else of the state
    has changed, and exactly one signal, ['fx_sim': 'specs_changed'], has
    been emitted, last of all. *)
Theorem coefficient_edit (d : gmap string string) (s : t) (name ui : string)
    (yb ya : list Q) :
  wired s →
  quantized "QCB" (ba s).1 s = inr yb →
  quantized "QCA" (ba s).2 s = inr ya →
  d !! "wdg_name" = Some name → name = "w_coeff_b" ∨ name = "w_coeff_a" →
  d !! "ui" = Some ui →
  update_q_coeff d s =
  Done tt (set_log (log s ++ [LogDebug "update q_coeff - dict_sig";
                              LogWarning "b"; LogWarning "a";
                              LogWarning "sig_rx";
                              Emit [("fx_sim", "specs_changed")]])
             (set_fxqc_a ya (set_fxqc_b yb s))).
Proof.
  intros Hw Hb Ha Hn Hname Hui.
  assert (Hrun : ∀ s', coeffs_only s s' →
            ui2dict s' = Done tt (set_fxqc_a ya (set_fxqc_b yb s')))
    by (intros s'; by apply ui2dict_settled).
  unfold update_q_coeff.
  erewrite bind_Done by apply tell_run. lazy beta.
  erewrite bind_Done by (apply Hrun; by repeat split). lazy beta.
  erewrite bind_Done by reflexivity. lazy beta.
  erewrite bind_Done by apply tell_run. lazy beta.
  erewrite bind_Done by reflexivity. lazy beta.
  erewrite bind_Done by apply tell_run. lazy beta.
  unfold process_sig_rx.
  erewrite bind_Done by apply tell_run. lazy beta.
  rewrite bool_decide_eq_true_2 by (by rewrite Hui).
  erewrite bind_Done; cycle 1.
  { unfold dispatch.
    erewrite bind_Done by by apply sig_get_Done. lazy beta.
    replace (bool_decide (name = "w_coeff_b") || bool_decide (name = "w_coeff_a"))
      with true by (destruct Hname as [-> | ->]; done).
    erewrite bind_Done by (apply Hrun; by repeat split).
    reflexivity. }
  lazy beta iota.
  erewrite bind_Done by (apply Hrun; by repeat split).
  rewrite tell_run. destruct s. cbn. by rewrite <- !app_assoc.
Qed.

End coefficient_edit.

Section filter_dict2ui.
Import IIR_DF1_pyfixp_UI IIR_methods.

Lemma set_store_log_id (s : t) l : set_store (store s) (set_log l s) = set_log l s.
Proof. by destruct s. Qed.

Lemma coeff_dict2ui_run (get : t → UI_W.t) (set : UI_W.t → t → t)
    (s : t) (l : loc) (f : Z * Z * Z) :
  UI_W.attr_format (get s) = Some f →
  ∃ x evs,
    on_widget get set (UI_W.dict2ui (Some l)) s =
    Done tt (set x (set_log (log s ++ evs) s)).
Proof.
  intros Hf. destruct f as [[wi0 wf0] w0].
  destruct (dict2ui_cases (UI_W.World (get s) (store s) (log s)) (Some l) l
              wi0 wf0 w0 eq_refl Hf) as (w' & Hrun & _ & Hst).
  destruct (dict2ui_display (Some l) (UI_W.World (get s) (store s) (log s)))
    as (_ & _ & _ & _ & evs & Hev & _).
  rewrite Hrun in Hev. cbn in Hev, Hst.
  exists (UI_W.self w'), evs. unfold on_widget. rewrite Hrun.
  by rewrite Hst, Hev, set_store_log_id.
Qed.

(** X21.  When [fb.fil[0]['fxqc']] has no 'QA', [dict2ui] puts an empty
    dictionary there before it sizes the accumulator.  Under manual sizing
    the sizing then reads [QA['WI']] from that empty dictionary: [dict2ui]
    raises [KeyError], leaving 'QA' bound to a new, empty dictionary. *)
Theorem dict2ui_without_QA (s : t) (lb la : loc) (fb fa : Z * Z * Z) :
  fxqc s !! "QA" = None →
  fxqc s !! "QCB" = Some lb → fxqc s !! "QCA" = Some la →
  UI_W.attr_format (wdg_w_coeffs_b s) = Some fb →
  UI_W.attr_format (wdg_w_coeffs_a s) = Some fa →
  UI_W.cmbW (wdg_w_accu s) ≠ "full" → UI_W.cmbW (wdg_w_accu s) ≠ "auto" →
  ∃ s' l, dict2ui s = Raised (KeyError "WI") s' ∧
          store s !! l = None ∧
          fxqc s' !! "QA" = Some l ∧
          store s' !! l = Some ∅ ∧
          (∀ l', l' ≠ l → store s' !! l' = store s !! l').
Proof.
  intros Hqa Hqcb Hqca Hfb Hfa H1 H2.
  set (l := fresh (dom (store s))).
  set (s1 := set_log (log s ++ [LogWarning "QA key missing"])
               (set_fxqc (<["QA" := l]> (fxqc s))
                  (set_store (<[l := ∅]> (store s)) s))).
  assert (He1 : ensure_dict "QA" s = Done tt s1).
  { unfold ensure_dict. erewrite bind_Done by reflexivity. lazy beta.
    rewrite Hqa. erewrite bind_Done by reflexivity. reflexivity. }
  assert (He2 : ∀ name l0, name ≠ "QA" → fxqc s !! name = Some l0 →
                           ensure_dict name s1 = Done tt s1).
  { intros name l0 Hne Hl0. unfold ensure_dict.
    erewrite bind_Done by reflexivity. lazy beta.
    cbn [s1 fxqc set_log set_fxqc]. by rewrite lookup_insert_ne, Hl0. }
  destruct (coeff_dict2ui_run wdg_w_coeffs_b set_wdg_w_coeffs_b
              s1 lb fb Hfb) as (xb & evb & Hrb).
  set (s2 := set_wdg_w_coeffs_b xb (set_log (log s1 ++ evb) s1)) in *.
  destruct (coeff_dict2ui_run wdg_w_coeffs_a set_wdg_w_coeffs_a
              s2 la fa Hfa) as (xa & eva & Hra).
  set (s3 := set_wdg_w_coeffs_a xa (set_log (log s2 ++ eva) s2)) in *.
  exists s3, l. split_and!.
  - unfold dict2ui.
    erewrite bind_Done by exact He1. lazy beta.
    erewrite bind_Done by (by eapply He2). lazy beta.
    erewrite bind_Done by (by eapply He2). lazy beta.
    erewrite bind_Done
      by (apply fxqc_dict_Done; cbn; by rewrite lookup_insert_ne).
    lazy beta.
    erewrite bind_Done by exact Hrb. lazy beta.
    erewrite bind_Done
      by (apply fxqc_dict_Done; cbn; by rewrite lookup_insert_ne).
    lazy beta.
    erewrite bind_Done by exact Hra. lazy beta.
    unfold update_accu_settings.
    erewrite bind_Done; cycle 1.
    { unfold try.
      destruct (bit_growth_cases s3) as [[e He] | [(g' & _ & Hm) | [-> _]]];
        [|by destruct Hm|reflexivity].
      exfalso. revert He. unfold bit_growth.
      erewrite bind_Done by reflexivity. lazy beta.
      rewrite (bool_decide_eq_false_2 (_ = "full")) by done.
      erewrite bind_Done by reflexivity. lazy beta.
      by rewrite (bool_decide_eq_false_2 (_ = "auto")) by done. }
    lazy beta iota.
    erewrite bind_Done by by apply derive_format_skip.
    unfold store_format. erewrite bind_Raised; [reflexivity|].
    unfold fxqc_get.
    erewrite bind_Done
      by (apply fxqc_dict_Done; cbn; by rewrite lookup_insert_eq).
    unfold mbind, M_bind, gets, lift, getitem. cbn [store s3 s2 s1 set_store
      set_log set_fxqc set_wdg_w_coeffs_a set_wdg_w_coeffs_b].
    by rewrite deref_insert, decide_True by done.
  - apply not_elem_of_dom, is_fresh.
  - cbn. by rewrite lookup_insert_eq.
  - cbn. by rewrite lookup_insert_eq.
  - intros l' Hl'. cbn. by rewrite lookup_insert_ne.
Qed.

Lemma dict2ui_without_QA_witness :
  ∃ s' l, dict2ui (demo_over (demo_heap demo_qca) (delete "QA" demo_fxqc)
                     (Some [1; 1; 1]%Q) 1%positive "man")
          = Raised (KeyError "WI") s' ∧
          demo_heap demo_qca !! l = None ∧
          fxqc s' !! "QA" = Some l ∧
          store s' !! l = Some ∅ ∧
          (∀ l', l' ≠ l → store s' !! l' = demo_heap demo_qca !! l').
Proof.
  apply (dict2ui_without_QA
           (demo_over (demo_heap demo_qca) (delete "QA" demo_fxqc)
              (Some [1; 1; 1]%Q) 1%positive "man")
           3%positive 4%positive (2, 13, 16) (1, 14, 16)); done.
Defined.

End filter_dict2ui.

Section coefficient_edit_witness.
Import IIR_DF1_pyfixp_UI IIR_methods.

Lemma coefficient_edit_witness :
  ∃ yb ya,
    update_q_coeff (H := demo_lib) {[ "wdg_name" := "w_coeff_b"; "ui" := "WF" ]}
      (demo "man" [1; 1; 1]%Q [1]%Q demo_qca) =
    Done tt (set_log [LogDebug "update q_coeff - dict_sig";
                      LogWarning "b"; LogWarning "a"; LogWarning "sig_rx";
                      Emit [("fx_sim", "specs_changed")]]
               (set_fxqc_a ya
                  (set_fxqc_b yb (demo "man" [1; 1; 1]%Q [1]%Q demo_qca)))).
Proof.
  eexists _, _.
  apply (coefficient_edit (H := demo_lib)
           {[ "wdg_name" := "w_coeff_b"; "ui" := "WF" ]}
           (demo "man" [1; 1; 1]%Q [1]%Q demo_qca) "w_coeff_b" "WF").
  - split_and!; eexists; (split_and!; [reflexivity | reflexivity |]);
      eexists; reflexivity.
  - reflexivity.
  - reflexivity.
  - reflexivity.
  - by left.
  - reflexivity.
Defined.

End coefficient_edit_witness.

(** ** The filter widget: [ui2dict] on an incomplete filter dictionary *)

Section filter_ui2dict.
Import IIR_DF1_pyfixp_UI IIR_methods.
Context `{FixLib}.

#[local] Instance same_fxqc_preorder : PreOrder same_fxqc.
Proof.
  split; [by intros s|]. intros s1 s2 s3 H12 H23. unfold same_fxqc in *.
  congruence.
Qed.

Lemma store_settings_run name get s lw :
  UI_W.q_dict (get s) = Some lw →
  ∃ s1, store_settings name get s = Done tt s1 ∧
        fxqc s1 = match fxqc s !! name with
                  | Some _ => fxqc s
                  | None => <[name := lw]> (fxqc s)
                  end ∧
        wdg_w_accu s1 = wdg_w_accu s ∧
        wdg_w_coeffs_b s1 = wdg_w_coeffs_b s ∧
        wdg_w_coeffs_a s1 = wdg_w_coeffs_a s.
Proof.
  intros Hq. unfold store_settings.
  erewrite bind_Done by reflexivity. lazy beta.
  destruct (fxqc s !! name) as [l|].
  - erewrite bind_Done by by apply widget_q_dict_Done.
    eexists. split; [reflexivity|]. by repeat split.
  - erewrite bind_Done by by apply widget_q_dict_Done. lazy beta.
    erewrite bind_Done by reflexivity.
    eexists. split; [reflexivity|]. by repeat split.
Qed.

Lemma widget_q_dict_frame (R : t → t → Prop) `{!PreOrder R} get :
  preserves R (widget_q_dict get).
Proof.
  intros s. unfold widget_q_dict. destruct (UI_W.q_dict (get s)); reflexivity.
Qed.

Lemma call_quant_coeffs_same_fxqc q c : preserves same_fxqc (call_quant_coeffs q c).
Proof.
  intros s. rewrite call_quant_coeffs_run. by destruct (fixp _ _).
Qed.

(** X22.  [ui2dict] completes the filter dictionary before it quantizes:
    when the three word-format widgets have their dictionaries, then however
    the call ends, each of 'QA', 'QCB', 'QCA' is bound afterwards, to the
    dictionary it was bound to before or, if it was missing, to the
    dictionary of its widget itself, which the widget and
    [fb.fil[0]['fxqc']] share from then on. *)
Theorem ui2dict_binds_missing (s : t) (l_accu l_b l_a : loc) :
  UI_W.q_dict (wdg_w_accu s) = Some l_accu →
  UI_W.q_dict (wdg_w_coeffs_b s) = Some l_b →
  UI_W.q_dict (wdg_w_coeffs_a s) = Some l_a →
  let s' := final (ui2dict s) in
  fxqc s' !! "QA" = bound_after "QA" (wdg_w_accu s) s ∧
  fxqc s' !! "QCB" = bound_after "QCB" (wdg_w_coeffs_b s) s ∧
  fxqc s' !! "QCA" = bound_after "QCA" (wdg_w_coeffs_a s) s ∧
  ∀ name, name ≠ "QA" → name ≠ "QCB" → name ≠ "QCA" →
          fxqc s' !! name = fxqc s !! name.
Proof.
  intros Hacc Hb Ha. cbv zeta.
  destruct (store_settings_run "QA" wdg_w_accu s l_accu Hacc)
    as (s1 & Hr1 & Hf1 & Hacc1 & Hb1 & Ha1).
  rewrite <- Hb1 in Hb.
  destruct (store_settings_run "QCB" wdg_w_coeffs_b s1 l_b Hb)
    as (s2 & Hr2 & Hf2 & Hacc2 & Hb2 & Ha2).
  rewrite <- Ha1, <- Ha2 in Ha.
  destruct (store_settings_run "QCA" wdg_w_coeffs_a s2 l_a Ha)
    as (s3 & Hr3 & Hf3 & Hacc3 & Hb3 & Ha3).
  unfold ui2dict.
  erewrite bind_Done by exact Hr1. lazy beta.
  erewrite bind_Done by exact Hr2. lazy beta.
  erewrite bind_Done by exact Hr3. lazy beta.
  match goal with
  | |- context [final (?m s3)] =>
      assert (Htail : preserves same_fxqc m)
  end.
  { repeat first
      [ apply widget_q_dict_frame; tc_solve
      | apply call_quant_coeffs_same_fxqc
      | apply preserves_bind; [tc_solve | | intros ?]
      | apply preserves_gets; tc_solve
      | by apply preserves_modify ]. }
  rewrite (Htail s3).
  rewrite Hf3, Hf2, Hf1. unfold bound_after.
  rewrite Hb1 in Hb. rewrite Ha2, Ha1 in Ha. rewrite Hacc, Hb, Ha.
  destruct (fxqc s !! "QA") as [l1|] eqn:E1;
    destruct (fxqc s !! "QCB") as [l2|] eqn:E2;
    destruct (fxqc s !! "QCA") as [l3|] eqn:E3.
  all: repeat first [ rewrite lookup_insert_eq
                    | rewrite lookup_insert_ne by done
                    | rewrite E1 | rewrite E2 | rewrite E3 ].
  all: split_and!;
    [ repeat first [ rewrite lookup_insert_eq
                   | rewrite lookup_insert_ne by done ]; congruence ..
    | intros name N1 N2 N3;
      by repeat (rewrite lookup_insert_ne by done) ].
Qed.

End filter_ui2dict.

Section filter_ui2dict_witness.
Import IIR_DF1_pyfixp_UI IIR_methods.

Lemma ui2dict_binds_missing_witness :
  let s := demo_over (demo_heap demo_qca) (delete "QA" demo_fxqc)
             (Some [1; 1; 1]%Q) 1%positive "man" in
  let s' := final (ui2dict (H := demo_lib) s) in
  fxqc s' !! "QA" = Some 1%positive ∧
  fxqc s' !! "QCB" = Some 3%positive ∧
  fxqc s' !! "QCA" = Some 4%positive.
Proof.
  intros s.
  destruct (ui2dict_binds_missing (H := demo_lib) s 1%positive 3%positive
              4%positive eq_refl eq_refl eq_refl) as (HA & HB & HC & _).
  split_and!; [exact HA | exact HB | exact HC].
Defined.

End filter_ui2dict_witness.

(** ** Accumulator sizing when the quantization widget is on another
       dictionary

    [update_accu_settings] ends with
    [fb.fil[0]['fxqc']['QA'].update(self.wdg_q_accu.q_dict)] ("update
    quantization settings").  The quantization widget was constructed over
    the accumulator dictionary, which carries 'WI', 'WF' and 'W' next to
    'ovfl' and 'quant'.  As long as [fb.fil[0]['fxqc']['QA']] is that very
    dictionary the update changes nothing.  Once it is another one -- the
    filter widget's [dict2ui] binds 'QA' to a new [{}] when the filter
    dictionary comes without it -- the update copies the old 'WI', 'WF', 'W'
    over the ones just computed. *)

Section sizing_overwritten.
Import IIR_DF1_pyfixp_UI IIR_methods.

(** C1, evaluated on the code.  [dict2ui] on a filter dictionary without
    'QA', policy 'full', eight b taps, input format 0.15, b coefficient
    format 2.13: the call returns, the growth for the eight taps is
    [G = 3], and the 'Q' entry written on the way reads 5.28; but the
    accumulator format left in [fb.fil[0]['fxqc']['QA']] is 0.30 with
    [W = 31], the one the quantization widget's dictionary held, and not
    [WI = 0 + 2 + 3], [WF = 15 + 13], [W = 34].  Only the missing key is
    logged. *)
Theorem accu_full_sizing_overwritten :
  let s := demo_without_QA "full" [1; 1; 1; 1; 1; 1; 1; 1]%Q [1]%Q in
  ∃ s', dict2ui s = Done tt s' ∧
        UI_W.cmbW (wdg_w_accu s') = "full" ∧
        fxqc_b s' = Some [1; 1; 1; 1; 1; 1; 1; 1]%Q ∧
        bit_growth s' = Done (Some 3) s' ∧
        word_format (QI s') = Some (0, 15, 16) ∧
        word_format (QCB s') = Some (2, 13, 16) ∧
        QA s' !! "Q" = Some (PStr "5.28") ∧
        word_format (QA s') = Some (0, 30, 31) ∧
        word_format (QA s') ≠ Some (0 + 2 + 3, 15 + 13, (0 + 2 + 3) + (15 + 13) + 1) ∧
        log s' = [LogWarning "QA key missing"].
Proof.
  intros s. eexists. split; [by vm_compute|].
  split_and!; by vm_compute.
Qed.

(** C2, evaluated on the code.  The same under 'auto' with b coefficients
    whose magnitudes sum to 5: the growth is [G = 3], the 'Q' entry reads
    5.28, and the accumulator format left in [fb.fil[0]['fxqc']['QA']] is
    0.30 with [W = 31] instead of [WI = 0 + 2 + 3], [WF = 15 + 13]. *)
Theorem accu_auto_sizing_overwritten :
  let s := demo_without_QA "auto" [1; -2; 3 # 2; -1 # 2]%Q [1]%Q in
  ∃ s', dict2ui s = Done tt s' ∧
        UI_W.cmbW (wdg_w_accu s') = "auto" ∧
        (sum_abs (ba s').1 == 5)%Q ∧
        bit_growth s' = Done (Some 3) s' ∧
        word_format (QI s') = Some (0, 15, 16) ∧
        word_format (QCB s') = Some (2, 13, 16) ∧
        QA s' !! "Q" = Some (PStr "5.28") ∧
        word_format (QA s') = Some (0, 30, 31) ∧
        word_format (QA s') ≠ Some (0 + 2 + 3, 15 + 13, (0 + 2 + 3) + (15 + 13) + 1) ∧
        log s' = [LogWarning "QA key missing"].
Proof.
  intros s. eexists. split; [by vm_compute|].
  split_and!; by vm_compute.
Qed.


End sizing_overwritten.

(** ** Widths that are kept, and word lengths that are not sanitized *)

Section stored_formats.
Import IIR_DF1_pyfixp_UI.



End stored_formats.
